(** * The in-memory Consul stub of marathon-consul (consul/consul_stub.go)

    A shallow embedding of the [Stub] type and of its methods, followed by
    the properties of the stub that its specification states.

    Conventions of the embedding.
    - A Go [map] is a [gmap]; a [map[K]bool] used as a set keeps its [bool]
      values, because the code tests presence ([_, ok := m[k]]), not the
      value.
    - A method with a pointer receiver that mutates the stub returns the new
      stub next to its Go results; a method that only reads takes the stub
      and returns its results.
    - A Go [error] result is an [option error]: [None] is [nil].
    - A slice is a [list]; a [nil] slice and an empty slice are both [[]].
    - [sync.RWMutex] serialises the calls; the embedding is the sequential
      behaviour of one call at a time.
    - The pointers stored in the table are never written through by the
      stub, so the table holds the registrations by value; pointer
      arguments and the extracted registrations are taken to be non-nil. *)

From stdpp Require Import gmap strings list fin_maps.
From Stdlib Require Import ZArith.

Local Open Scope string_scope.
Local Open Scope list_scope.
Local Open Scope Z_scope.

(** ** Data of the collaborating packages *)

(** Go's [error], carried as its message. *)
Abbreviation error := string (only parsing).

Module apps.

(** Modelled from the spec: [apps.TaskID] is declared outside
    consul_stub.go; the spec speaks of the identifier's "string form",
    so it is a string and [String] is the conversion. *)
Abbreviation TaskID := string (only parsing).

Definition TaskID_String (id : TaskID) : string := id.

(** Modelled from the spec: the registration intent read by
    [RegisterWithoutMarathonTaskTag] ([intent.Name], [intent.Port],
    [intent.Tags]); the type is declared outside consul_stub.go. *)
Record RegistrationIntent := {
  Name : string;
  Port : Z;
  Tags : list string
}.

End apps.

Module consulapi.

(** Modelled from the spec: [consulapi.AgentServiceRegistration] is the
    spec's Entry (id, name, tags, port, address); the type is declared
    outside consul_stub.go. Its health checks, which the stub never reads,
    are not part of the Entry. *)
Record AgentServiceRegistration := {
  ID : string;
  Name : string;
  Tags : list string;
  Port : Z;
  Address : string
}.

End consulapi.

Module service.

(** The caller-facing shape built by [GetAllServices] and [GetServices]:
    the four fields the stub fills in. *)
Record Service := {
  ID : string;
  Name : string;
  Tags : list string;
  AgentAddress : string
}.

End service.

Abbreviation AgentServiceRegistration := consulapi.AgentServiceRegistration.
Abbreviation Service := service.Service.
Abbreviation TaskID := apps.TaskID (only parsing).

(** ** Configuration *)

Record Config := {
  Tag : string;
  ConsulNameSeparator : string
}.

Record Consul := {
  config : Config
}.

(** Modelled from the spec: [New] is declared outside consul_stub.go; the
    stub only ever reads the configuration back. *)
Definition New (cfg : Config) : Consul := {| config := cfg |}.

(** Modelled from the spec: [contains] is declared outside consul_stub.go;
    tag matching is exact string membership. *)
Definition contains (slice : list string) (search : string) : bool :=
  existsb (String.eqb search) slice.

(** ** The stub *)

Record Stub := {
  services : gmap string AgentServiceRegistration;
  failGetServicesForNames : gmap string bool;
  failRegisterForIDs : gmap string bool;
  failDeregisterByTaskForIDs : gmap string bool;
  failDeregisterForIDs : gmap string bool;
  consul : Consul
}.

Definition with_services (c : Stub)
    (m : gmap string AgentServiceRegistration) : Stub :=
  {| services := m;
     failGetServicesForNames := failGetServicesForNames c;
     failRegisterForIDs := failRegisterForIDs c;
     failDeregisterByTaskForIDs := failDeregisterByTaskForIDs c;
     failDeregisterForIDs := failDeregisterForIDs c;
     consul := consul c |}.

(** The outcome of a method that has no error result but can hit a run-time
    panic (an index out of range). *)
Inductive exec (A : Type) : Type :=
  | Returns (a : A)
  | Panics.
Arguments Returns {A} a.
Arguments Panics {A}.

(** What the stub takes from outside consul_stub.go: the task and app
    types with the two task fields it reads, the intent extraction of the
    [Consul] client and of the app, the parsing of a task identifier out of
    a service's tags, and the order in which Go's [range] walks the table
    (unspecified by the language: any order that visits each key once). *)
Class Collaborators := {
  Task : Type;
  App : Type;
  Task_ID : Task → TaskID;
  Task_Host : Task → string;
  marathonTaskToConsulServices :
    Consul → Task → App → list AgentServiceRegistration * option error;
  RegistrationIntents :
    App → Task → string → list apps.RegistrationIntent;
  Service_TaskID : Service → TaskID * option error;
  range_map :
    gmap string AgentServiceRegistration →
    list (string * AgentServiceRegistration);
  range_map_perm : ∀ m, range_map m ≡ₚ map_to_list m
}.

Definition NewConsulStubWithTag (tag : string) : Stub :=
  {| services := ∅;
     failGetServicesForNames := ∅;
     failRegisterForIDs := ∅;
     failDeregisterByTaskForIDs := ∅;
     failDeregisterForIDs := ∅;
     consul := New {| Tag := tag; ConsulNameSeparator := "." |} |}.

Definition NewConsulStub : Stub := NewConsulStubWithTag "marathon".

Definition toService (s : AgentServiceRegistration) : Service :=
  {| service.ID := consulapi.ID s;
     service.Name := consulapi.Name s;
     service.Tags := consulapi.Tags s;
     service.AgentAddress := consulapi.Address s |}.

Definition FailGetServicesForName (c : Stub) (failOnName : string) : Stub :=
  {| services := services c;
     failGetServicesForNames := <[failOnName := true]> (failGetServicesForNames c);
     failRegisterForIDs := failRegisterForIDs c;
     failDeregisterByTaskForIDs := failDeregisterByTaskForIDs c;
     failDeregisterForIDs := failDeregisterForIDs c;
     consul := consul c |}.

Definition FailRegisterForID (c : Stub) (taskID : TaskID) : Stub :=
  {| services := services c;
     failGetServicesForNames := failGetServicesForNames c;
     failRegisterForIDs := <[taskID := true]> (failRegisterForIDs c);
     failDeregisterByTaskForIDs := failDeregisterByTaskForIDs c;
     failDeregisterForIDs := failDeregisterForIDs c;
     consul := consul c |}.

Definition FailDeregisterByTaskForID (c : Stub) (taskID : TaskID) : Stub :=
  {| services := services c;
     failGetServicesForNames := failGetServicesForNames c;
     failRegisterForIDs := failRegisterForIDs c;
     failDeregisterByTaskForIDs := <[taskID := true]> (failDeregisterByTaskForIDs c);
     failDeregisterForIDs := failDeregisterForIDs c;
     consul := consul c |}.

Definition FailDeregisterForID (c : Stub) (serviceID : string) : Stub :=
  {| services := services c;
     failGetServicesForNames := failGetServicesForNames c;
     failRegisterForIDs := failRegisterForIDs c;
     failDeregisterByTaskForIDs := failDeregisterByTaskForIDs c;
     failDeregisterForIDs := <[serviceID := true]> (failDeregisterForIDs c);
     consul := consul c |}.

Section Methods.

Context {collab : Collaborators}.

Definition GetAllServices (c : Stub) : list Service * option error :=
  (foldl (λ allServices kv, allServices ++ [toService kv.2])
         [] (range_map (services c)),
   None).

Definition GetServices (c : Stub) (name : string)
    : list Service * option error :=
  match failGetServicesForNames c !! name with
  | Some _ =>
      ([], Some ("Consul stub programmed to fail when getting services for name "
                 +:+ name))
  | None =>
      (foldl (λ services kv,
                let s := kv.2 in
                if String.eqb (consulapi.Name s) name
                   && contains (consulapi.Tags s) (Tag (config (consul c)))
                then services ++ [toService s]
                else services)
             [] (range_map (services c)),
       None)
  end.

Definition Register (c : Stub) (task : Task) (app : App)
    : Stub * option error :=
  match failRegisterForIDs c !! Task_ID task with
  | Some _ =>
      (c, Some ("Consul stub programmed to fail when registering task of id "
                +:+ apps.TaskID_String (Task_ID task)))
  | None =>
      let '(serviceRegistrations, err) :=
        marathonTaskToConsulServices (consul c) task app in
      match err with
      | Some e => (c, Some e)
      | None =>
          (with_services c
             (foldl (λ m r, <[consulapi.ID r := r]> m)
                    (services c) serviceRegistrations),
           None)
      end
  end.

Definition RegisterWithoutMarathonTaskTag (c : Stub) (task : Task) (app : App)
    : Stub :=
  with_services c
    (foldl (λ m intent,
              let serviceRegistration :=
                {| consulapi.ID := apps.TaskID_String (Task_ID task);
                   consulapi.Name := apps.Name intent;
                   consulapi.Port := apps.Port intent;
                   consulapi.Address := Task_Host task;
                   consulapi.Tags := apps.Tags intent |} in
              <[consulapi.ID serviceRegistration := serviceRegistration]> m)
           (services c)
           (RegistrationIntents app task
              (ConsulNameSeparator (config (consul c))))).

(** [serviceRegistrations[0]] panics when the slice is empty. *)
Definition RegisterOnlyFirstRegistrationIntent (c : Stub) (task : Task)
    (app : App) : exec Stub :=
  let '(serviceRegistrations, _) :=
    marathonTaskToConsulServices (consul c) task app in
  match serviceRegistrations !! 0%nat with
  | Some r0 =>
      Returns (with_services c (<[consulapi.ID r0 := r0]> (services c)))
  | None => Panics
  end.

Definition servicesMatchingTask (c : Stub) (taskID : TaskID)
    : list AgentServiceRegistration :=
  foldl (λ matching kv,
           let s := kv.2 in
           if String.eqb (consulapi.ID s) (apps.TaskID_String taskID)
              || contains (consulapi.Tags s)
                   ("marathon-task:" +:+ apps.TaskID_String taskID)
           then matching ++ [s]
           else matching)
        [] (range_map (services c)).

Definition DeregisterByTask (c : Stub) (taskID : TaskID)
    : Stub * option error :=
  match failDeregisterByTaskForIDs c !! taskID with
  | Some _ =>
      (c, Some ("Consul stub programmed to fail when deregistering task of id "
                +:+ apps.TaskID_String taskID))
  | None =>
      (with_services c
         (foldl (λ m x, delete (consulapi.ID x) m)
                (services c) (servicesMatchingTask c taskID)),
       None)
  end.

Definition Deregister (c : Stub) (toDeregister : Service)
    : Stub * option error :=
  match failDeregisterForIDs c !! service.ID toDeregister with
  | Some _ =>
      (c, Some ("Consul stub programmed to fail when deregistering service of id "
                +:+ service.ID toDeregister))
  | None =>
      (with_services c (delete (service.ID toDeregister) (services c)), None)
  end.

Definition RegisteredTaskIDs (c : Stub) (serviceName : string)
    : list TaskID :=
  let '(services, _) := GetServices c serviceName in
  foldl (λ taskIds s,
           let '(taskID, _) := Service_TaskID s in
           taskIds ++ [taskID])
        [] services.

End Methods.

(** ** Sequences of calls *)

Section Calls.

Context {collab : Collaborators}.

(** One call of a method of the stub by its client. *)
Inductive call : Type :=
  | CallGetAllServices
  | CallFailGetServicesForName (failOnName : string)
  | CallFailRegisterForID (taskID : TaskID)
  | CallFailDeregisterByTaskForID (taskID : TaskID)
  | CallFailDeregisterForID (serviceID : string)
  | CallGetServices (name : string)
  | CallRegister (task : Task) (app : App)
  | CallRegisterWithoutMarathonTaskTag (task : Task) (app : App)
  | CallRegisterOnlyFirstRegistrationIntent (task : Task) (app : App)
  | CallDeregisterByTask (taskID : TaskID)
  | CallDeregister (toDeregister : Service)
  | CallRegisteredTaskIDs (serviceName : string).

(** The stub after the call; the results handed to the caller are dropped. *)
Definition exec_call (c : Stub) (k : call) : exec Stub :=
  match k with
  | CallGetAllServices => Returns c
  | CallFailGetServicesForName n => Returns (FailGetServicesForName c n)
  | CallFailRegisterForID t => Returns (FailRegisterForID c t)
  | CallFailDeregisterByTaskForID t => Returns (FailDeregisterByTaskForID c t)
  | CallFailDeregisterForID i => Returns (FailDeregisterForID c i)
  | CallGetServices _ => Returns c
  | CallRegister task app => Returns (Register c task app).1
  | CallRegisterWithoutMarathonTaskTag task app =>
      Returns (RegisterWithoutMarathonTaskTag c task app)
  | CallRegisterOnlyFirstRegistrationIntent task app =>
      RegisterOnlyFirstRegistrationIntent c task app
  | CallDeregisterByTask t => Returns (DeregisterByTask c t).1
  | CallDeregister s => Returns (Deregister c s).1
  | CallRegisteredTaskIDs _ => Returns c
  end.

Fixpoint exec_calls (c : Stub) (ks : list call) : exec Stub :=
  match ks with
  | [] => Returns c
  | k :: ks' =>
      match exec_call c k with
      | Returns c' => exec_calls c' ks'
      | Panics => Panics
      end
  end.

(** The states a client can bring a stub to: built by a constructor and
    driven by calls, none of which panicked. *)
Definition reachable (c : Stub) : Prop :=
  ∃ tag ks, exec_calls (NewConsulStubWithTag tag) ks = Returns c.

(** Every entry of the table sits under its own [ID]. *)
Definition keyed_by_ID (m : gmap string AgentServiceRegistration) : Prop :=
  map_Forall (λ k r, consulapi.ID r = k) m.

(** The test of [servicesMatchingTask]. *)
Definition matchesTask (taskID : TaskID) (s : AgentServiceRegistration) : bool :=
  String.eqb (consulapi.ID s) (apps.TaskID_String taskID)
  || contains (consulapi.Tags s) ("marathon-task:" +:+ apps.TaskID_String taskID).

(** The test of [GetServices]. *)
Definition ownedByName (c : Stub) (name : string)
    (s : AgentServiceRegistration) : bool :=
  String.eqb (consulapi.Name s) name
  && contains (consulapi.Tags s) (Tag (config (consul c))).

End Calls.

(** ** A scripted instance of the collaborators

    Used to evaluate the methods on concrete inputs. The app carries what
    intent extraction returns for it; the table is walked in the order of
    [map_to_list]. *)

Record ScriptedTask := {
  scripted_ID : string;
  scripted_Host : string
}.

Record ScriptedApp := {
  scripted_registrations : list AgentServiceRegistration;
  scripted_err : option string;
  scripted_intents : list apps.RegistrationIntent
}.

Fixpoint trimPrefix (prefix s : string) : option string :=
  match prefix, s with
  | EmptyString, _ => Some s
  | String a prefix', String b s' =>
      if Ascii.eqb a b then trimPrefix prefix' s' else None
  | String _ _, EmptyString => None
  end.

(** Modelled from the spec: [Service.TaskID] is declared outside
    consul_stub.go; the identifier is what follows [marathon-task:] in the
    link tag, and an entry without such a tag yields an error (next to Go's
    zero value of the identifier). *)
Fixpoint taskIDFromTags (tags : list string) : TaskID * option string :=
  match tags with
  | [] => ("", Some "marathon-task tag missing")
  | tag :: tags' =>
      match trimPrefix "marathon-task:" tag with
      | Some id => (id, None)
      | None => taskIDFromTags tags'
      end
  end.

#[export] Instance scripted : Collaborators := {|
  Task := ScriptedTask;
  App := ScriptedApp;
  Task_ID := scripted_ID;
  Task_Host := scripted_Host;
  marathonTaskToConsulServices _ _ app :=
    (scripted_registrations app, scripted_err app);
  RegistrationIntents app _ _ := scripted_intents app;
  Service_TaskID s := taskIDFromTags (service.Tags s);
  range_map := map_to_list;
  range_map_perm m := Permutation_refl (map_to_list m)
|}.

(** ** Example data

    One task whose app yields three registrations named [web]: one linked
    to the task by its tag only, one by its [ID] only (it carries no link
    tag), and one linked by its tag but owned by another registry tag. *)

Definition web_linked : AgentServiceRegistration :=
  {| consulapi.ID := "t1_web_8080";
     consulapi.Name := "web";
     consulapi.Tags := ["marathon"; "marathon-task:t1"];
     consulapi.Port := 8080;
     consulapi.Address := "10.0.0.1" |}.

Definition web_by_id : AgentServiceRegistration :=
  {| consulapi.ID := "t1";
     consulapi.Name := "web";
     consulapi.Tags := ["marathon"];
     consulapi.Port := 8081;
     consulapi.Address := "10.0.0.1" |}.

Definition web_foreign : AgentServiceRegistration :=
  {| consulapi.ID := "t2_web_9090";
     consulapi.Name := "web";
     consulapi.Tags := ["other"; "marathon-task:t2"];
     consulapi.Port := 9090;
     consulapi.Address := "10.0.0.2" |}.

Definition task_t1 : ScriptedTask :=
  {| scripted_ID := "t1"; scripted_Host := "10.0.0.1" |}.

Definition task_t2 : ScriptedTask :=
  {| scripted_ID := "t2"; scripted_Host := "10.0.0.2" |}.

Definition app_web : ScriptedApp :=
  {| scripted_registrations := [web_linked; web_by_id; web_foreign];
     scripted_err := None;
     scripted_intents := [] |}.

(** An app whose extraction fails: no registrations and an error. *)
Definition app_unresolvable : ScriptedApp :=
  {| scripted_registrations := [];
     scripted_err := Some "cannot resolve host";
     scripted_intents := [] |}.

(** An app whose only registration lacks the link tag. *)
Definition app_unlinked : ScriptedApp :=
  {| scripted_registrations := [web_by_id];
     scripted_err := None;
     scripted_intents := [] |}.

Definition stub_web : Stub := (Register NewConsulStub task_t1 app_web).1.

(** Calls made after a flag was set: a registration for another task, then
    the removal of one of its entries. *)
Definition later_calls : list call :=
  [CallRegister (collab := scripted) task_t2 app_web;
   CallDeregister (toService web_linked)].

Definition stub_unlinked : Stub := (Register NewConsulStub task_t1 app_unlinked).1.

(** The registrations of task [t1] alone: both match it, one by its link
    tag and one by its id. *)
Definition app_t1 : ScriptedApp :=
  {| scripted_registrations := [web_linked; web_by_id];
     scripted_err := None;
     scripted_intents := [] |}.

(** An app of another task with the one registration [web_foreign]. *)
Definition app_foreign : ScriptedApp :=
  {| scripted_registrations := [web_foreign];
     scripted_err := None;
     scripted_intents := [] |}.

(** An app whose extraction returns a registration next to an error. *)
Definition app_broken : ScriptedApp :=
  {| scripted_registrations := [web_linked];
     scripted_err := Some "health check not supported";
     scripted_intents := [] |}.

Definition intent_web : apps.RegistrationIntent :=
  {| apps.Name := "web"; apps.Port := 8080; apps.Tags := ["marathon"] |}.

Definition intent_admin : apps.RegistrationIntent :=
  {| apps.Name := "web-admin"; apps.Port := 8081; apps.Tags := ["admin"] |}.

(** An app with two intents, as read by [RegisterWithoutMarathonTaskTag]. *)
Definition app_two_intents : ScriptedApp :=
  {| scripted_registrations := [];
     scripted_err := None;
     scripted_intents := [intent_web; intent_admin] |}.

(** A stub that holds the entry of another task only. *)
Definition stub_foreign : Stub := (Register NewConsulStub task_t2 app_foreign).1.

(** Every key flagged in one of the four failure sets of [c] is flagged in
    the same set of [c']. *)
Definition flags_kept (c c' : Stub) : Prop :=
  (∀ name, is_Some (failGetServicesForNames c !! name) →
           is_Some (failGetServicesForNames c' !! name))
  ∧ (∀ taskID, is_Some (failRegisterForIDs c !! taskID) →
               is_Some (failRegisterForIDs c' !! taskID))
  ∧ (∀ taskID, is_Some (failDeregisterByTaskForIDs c !! taskID) →
               is_Some (failDeregisterByTaskForIDs c' !! taskID))
  ∧ (∀ serviceID, is_Some (failDeregisterForIDs c !! serviceID) →
                  is_Some (failDeregisterForIDs c' !! serviceID)).

(** The last registration of [l] whose [ID] is [k]: the one that a loop
    of insertions keyed by [ID] leaves under [k]. *)
Definition last_with_ID (k : string) (l : list AgentServiceRegistration)
    : option AgentServiceRegistration :=
  last (filter (λ r, consulapi.ID r = k) l).

(** [msg] names [key]: the key occurs in the message. *)
Definition mentions (msg key : string) : Prop :=
  ∃ before after, msg = before +:+ key +:+ after.

(** What the specification says of [RegisteredTaskIDs]: an entry whose tags
    yield no identifier is left out of the result. *)
Definition RegisteredTaskIDs_omitting {collab : Collaborators} (c : Stub)
    (serviceName : string) : list TaskID :=
  omap (λ s, match Service_TaskID s with
             | (taskID, None) => Some taskID
             | (_, Some _) => None
             end)
       (GetServices c serviceName).1.

(** * Properties *)

(** ** Loops that append *)

Section Loops.

Context {A B : Type}.

Lemma foldl_append_if (p : A → bool) (f : A → B) (l : list A) (acc : list B) :
  foldl (λ acc x, if p x then acc ++ [f x] else acc) acc l
  = acc ++ (f <$> filter (λ x, p x) l).
Proof.
  revert acc. induction l as [|x l IH]; intros acc; simpl.
  - by rewrite app_nil_r.
  - rewrite IH, filter_cons. destruct (p x); simpl; [|done].
    by rewrite <- app_assoc.
Qed.

Lemma foldl_append_all (f : A → B) (l : list A) (acc : list B) :
  foldl (λ acc x, acc ++ [f x]) acc l = acc ++ (f <$> l).
Proof.
  revert acc. induction l as [|x l IH]; intros acc; simpl.
  - by rewrite app_nil_r.
  - rewrite IH. by rewrite <- app_assoc.
Qed.

End Loops.

Lemma string_append_nil_r (s : string) : s +:+ "" = s.
Proof.
  induction s as [|a s IH]; [done |].
  change (String a (s +:+ "") = String a s). by rewrite IH.
Qed.

Lemma mentions_suffix (prefix key : string) : mentions (prefix +:+ key) key.
Proof. exists prefix, "". by rewrite string_append_nil_r. Qed.

Lemma contains_spec (slice : list string) (search : string) :
  contains slice search = true ↔ search ∈ slice.
Proof.
  unfold contains. rewrite existsb_exists. split.
  - intros (x & Hx & Heq). apply String.eqb_eq in Heq as ->.
    by apply list_elem_of_In.
  - intros Hin. exists search. split; [by apply list_elem_of_In |].
    apply String.eqb_refl.
Qed.

Lemma with_services_id (c : Stub) : with_services c (services c) = c.
Proof. by destruct c. Qed.

Section Queries.

Context {collab : Collaborators}.

Lemma GetAllServices_unfold (c : Stub) :
  GetAllServices c = (toService <$> (range_map (services c)).*2, None).
Proof.
  unfold GetAllServices.
  rewrite (foldl_append_all (λ kv, toService kv.2)).
  simpl. by rewrite <- list_fmap_compose.
Qed.

Lemma ownedByName_spec (c : Stub) (name : string) (s : AgentServiceRegistration) :
  ownedByName c name s = true
  ↔ consulapi.Name s = name ∧ Tag (config (consul c)) ∈ consulapi.Tags s.
Proof.
  unfold ownedByName. rewrite andb_true_iff, String.eqb_eq, contains_spec. done.
Qed.

Lemma GetServices_unfold (c : Stub) (name : string) :
  failGetServicesForNames c !! name = None →
  GetServices c name
  = (toService <$> filter (λ s, ownedByName c name s)
                          (range_map (services c)).*2,
     None).
Proof.
  intros Hok. unfold GetServices. rewrite Hok. f_equal.
  etrans; [exact (foldl_append_if (λ kv, ownedByName c name kv.2)
                                  (λ kv, toService kv.2) _ []) |].
  simpl. generalize (range_map (services c)). intros l.
  induction l as [|[k s] l IH]; [done |].
  rewrite fmap_cons, !filter_cons. simpl.
  destruct (ownedByName c name s); simpl; [|done].
  f_equal. exact IH.
Qed.

Lemma GetServices_flagged (c : Stub) (name : string) :
  is_Some (failGetServicesForNames c !! name) →
  GetServices c name
  = ([], Some ("Consul stub programmed to fail when getting services for name "
               +:+ name)).
Proof. intros [b Hb]. unfold GetServices. by rewrite Hb. Qed.

Lemma RegisteredTaskIDs_loop (l : list Service) (acc : list string) :
  foldl (λ taskIds s, let '(taskID, _) := Service_TaskID s in taskIds ++ [taskID])
        acc l
  = acc ++ ((λ s, (Service_TaskID s).1) <$> l).
Proof.
  revert acc. induction l as [|s l IH]; intros acc; simpl.
  - by rewrite app_nil_r.
  - rewrite IH. destruct (Service_TaskID s). simpl. by rewrite <- app_assoc.
Qed.

Lemma RegisteredTaskIDs_unfold (c : Stub) (serviceName : string) :
  RegisteredTaskIDs c serviceName
  = (λ s, (Service_TaskID s).1) <$> (GetServices c serviceName).1.
Proof.
  unfold RegisteredTaskIDs. destruct (GetServices c serviceName) as [l e].
  apply RegisteredTaskIDs_loop.
Qed.

Lemma elem_of_range_map_values (m : gmap string AgentServiceRegistration)
    (s : AgentServiceRegistration) :
  s ∈ (range_map m).*2 ↔ ∃ k, m !! k = Some s.
Proof.
  rewrite range_map_perm, list_elem_of_fmap. split.
  - intros ([k s'] & -> & Hin). exists k. by apply elem_of_map_to_list.
  - intros [k Hk]. exists (k, s). split; [done |]. by apply elem_of_map_to_list.
Qed.

End Queries.

(** ** Queries *)

Section QueryClaims.

Context {collab : Collaborators}.

Lemma filter_ownedByName (c : Stub) (name : string)
    (l : list AgentServiceRegistration) :
  filter (λ s, ownedByName c name s) l
  = filter (λ r, consulapi.Name r = name
                 ∧ Tag (config (consul c)) ∈ consulapi.Tags r) l.
Proof.
  apply list_filter_iff. intros r. rewrite Is_true_true.
  apply ownedByName_spec.
Qed.

(** C9: [GetAllServices] never fails (its error result is always nil) and
    returns every entry of the table, each exactly once, translated to the
    caller-facing shape (id, name, tags, address); the registry tag plays
    no part, so an entry is returned whatever its tags are. *)
Theorem GetAllServices_returns_every_entry (c : Stub) :
  (GetAllServices c).2 = None
  ∧ (GetAllServices c).1 ≡ₚ toService <$> (map_to_list (services c)).*2
  ∧ length (GetAllServices c).1 = size (services c)
  ∧ (∀ k r, services c !! k = Some r →
       ∃ s, s ∈ (GetAllServices c).1
            ∧ service.ID s = consulapi.ID r
            ∧ service.Name s = consulapi.Name r
            ∧ service.Tags s = consulapi.Tags r
            ∧ service.AgentAddress s = consulapi.Address r)
  ∧ (∀ s, s ∈ (GetAllServices c).1 →
       ∃ k r, services c !! k = Some r ∧ s = toService r).
Proof.
  rewrite GetAllServices_unfold. simpl. split_and!.
  - done.
  - by rewrite range_map_perm.
  - rewrite range_map_perm, !length_fmap. apply length_map_to_list.
  - intros k r Hkr. exists (toService r). split; [|done].
    apply list_elem_of_fmap. exists r. split; [done |].
    apply elem_of_range_map_values. by exists k.
  - intros s (r & -> & Hr)%list_elem_of_fmap.
    apply elem_of_range_map_values in Hr as [k Hk]. by exists k, r.
Qed.

(** C4: when [name] is not in the fail-get-by-name set, [GetServices]
    succeeds and returns exactly the stored entries whose name is [name]
    and whose tags contain the configured registry tag, each once; an entry
    lacking that tag is not in the result. When [name] is in the set, it
    returns no entries and an error whose message includes [name]. *)
Theorem GetServices_scoped_by_name_and_tag (c : Stub) (name : string) :
  (failGetServicesForNames c !! name = None →
     (GetServices c name).2 = None
     ∧ (GetServices c name).1
         ≡ₚ toService <$>
              filter (λ r, consulapi.Name r = name
                           ∧ Tag (config (consul c)) ∈ consulapi.Tags r)
                     (map_to_list (services c)).*2
     ∧ (∀ s, s ∈ (GetServices c name).1 ↔
          ∃ k r, services c !! k = Some r
                 ∧ consulapi.Name r = name
                 ∧ Tag (config (consul c)) ∈ consulapi.Tags r
                 ∧ s = toService r)
     ∧ (∀ s, s ∈ (GetServices c name).1 →
          Tag (config (consul c)) ∈ service.Tags s))
  ∧ (is_Some (failGetServicesForNames c !! name) →
     ∃ msg, GetServices c name = ([], Some msg) ∧ mentions msg name).
Proof.
  split.
  - intros Hok. rewrite (GetServices_unfold _ _ Hok). simpl.
    assert (Hmem : ∀ s,
      s ∈ toService <$> filter (λ s, ownedByName c name s)
                               (range_map (services c)).*2 ↔
      ∃ k r, services c !! k = Some r ∧ consulapi.Name r = name
             ∧ Tag (config (consul c)) ∈ consulapi.Tags r ∧ s = toService r).
    { intros s. rewrite list_elem_of_fmap. split.
      - intros (r & -> & Hr). apply list_elem_of_filter in Hr as [Hp Hr].
        apply Is_true_true, ownedByName_spec in Hp as [Hn Ht].
        apply elem_of_range_map_values in Hr as [k Hk]. by exists k, r.
      - intros (k & r & Hk & Hn & Ht & ->). exists r. split; [done |].
        apply list_elem_of_filter. split.
        + apply Is_true_true, ownedByName_spec. done.
        + apply elem_of_range_map_values. by exists k. }
    split_and!; [done | | exact Hmem |].
    + by rewrite range_map_perm, filter_ownedByName.
    + intros s (k & r & _ & _ & Ht & ->)%Hmem. exact Ht.
  - intros Hflag. rewrite (GetServices_flagged _ _ Hflag).
    eexists. split; [done |]. apply mentions_suffix.
Qed.

(** C1 (as amended): [RegisteredTaskIDs] returns one identifier for each
    entry returned by [GetServices], in the same order: the value that the
    entry's [TaskID] returns, with its error dropped. No entry is left out,
    so the result is as long as the list of entries; it is empty when
    [GetServices] returns an error. *)
Theorem RegisteredTaskIDs_one_identifier_per_entry (c : Stub)
    (serviceName : string) :
  RegisteredTaskIDs c serviceName
    = (λ s, (Service_TaskID s).1) <$> (GetServices c serviceName).1
  ∧ length (RegisteredTaskIDs c serviceName)
    = length (GetServices c serviceName).1
  ∧ (failGetServicesForNames c !! serviceName = None →
     length (RegisteredTaskIDs c serviceName)
     = length (filter (λ r, consulapi.Name r = serviceName
                            ∧ Tag (config (consul c)) ∈ consulapi.Tags r)
                      (map_to_list (services c)).*2))
  ∧ (is_Some (failGetServicesForNames c !! serviceName) →
     RegisteredTaskIDs c serviceName = []).
Proof.
  rewrite RegisteredTaskIDs_unfold. split_and!.
  - done.
  - by rewrite length_fmap.
  - intros Hok. rewrite (GetServices_unfold _ _ Hok). simpl.
    by rewrite !length_fmap, range_map_perm, filter_ownedByName.
  - intros Hflag. by rewrite (GetServices_flagged _ _ Hflag).
Qed.

End QueryClaims.

(** ** Loops that insert and delete *)

Section TableLoops.

Implicit Types (m : gmap string AgentServiceRegistration).
Implicit Types (l : list AgentServiceRegistration).

Lemma foldl_insert_lookup l m k :
  foldl (λ m r, <[consulapi.ID r := r]> m) m l !! k
  = match last_with_ID k l with
    | Some r => Some r
    | None => m !! k
    end.
Proof.
  unfold last_with_ID. revert m. induction l as [|x l IH]; intros m; [done |].
  simpl. rewrite IH, filter_cons. destruct (decide (consulapi.ID x = k)) as [->|Hne].
  - destruct (filter _ l) as [|y l'] eqn:Hf; simpl.
    + by rewrite lookup_insert_eq.
    + by destruct (last (y :: l')) eqn:Hl;
        [| apply last_None in Hl].
  - destruct (last (filter _ l)); [done |]. by rewrite lookup_insert_ne.
Qed.

Lemma foldl_insert_twice l m :
  foldl (λ m r, <[consulapi.ID r := r]> m)
        (foldl (λ m r, <[consulapi.ID r := r]> m) m l) l
  = foldl (λ m r, <[consulapi.ID r := r]> m) m l.
Proof.
  apply map_eq. intros k. rewrite (foldl_insert_lookup l (foldl _ m l)).
  rewrite (foldl_insert_lookup l m). by destruct (last_with_ID k l).
Qed.

Lemma foldl_insert_dom l m :
  dom (foldl (λ m r, <[consulapi.ID r := r]> m) m l)
  = dom m ∪ list_to_set (consulapi.ID <$> l).
Proof.
  revert m. induction l as [|x l IH]; intros m.
  - simpl. by rewrite (right_id_L ∅ (∪)).
  - rewrite fmap_cons, list_to_set_cons. simpl.
    rewrite IH, dom_insert_L, (assoc_L (∪)). f_equal. apply (comm_L (∪)).
Qed.

Lemma foldl_insert_keyed l m :
  keyed_by_ID m → keyed_by_ID (foldl (λ m r, <[consulapi.ID r := r]> m) m l).
Proof.
  revert m. induction l as [|x l IH]; intros m Hm; [done |].
  simpl. apply IH. by apply map_Forall_insert_2.
Qed.

Lemma foldl_delete_lookup l m k :
  foldl (λ m x, delete (consulapi.ID x) m) m l !! k
  = if decide (k ∈ consulapi.ID <$> l) then None else m !! k.
Proof.
  revert m. induction l as [|x l IH]; intros m.
  - destruct (decide (k ∈ consulapi.ID <$> [])) as [Hin|]; [|done].
    by apply elem_of_nil in Hin.
  - rewrite fmap_cons. simpl. rewrite IH.
    destruct (decide (k ∈ consulapi.ID <$> l)) as [Hin|Hnin];
      destruct (decide (k ∈ consulapi.ID x :: (consulapi.ID <$> l)))
        as [Hin'|Hnin']; try done.
    + exfalso. apply Hnin'. by right.
    + apply elem_of_cons in Hin' as [->|?]; [|done].
      apply lookup_delete_eq.
    + apply lookup_delete_ne. intros <-. apply Hnin'. by left.
Qed.

Lemma foldl_delete_keyed l m :
  keyed_by_ID m → keyed_by_ID (foldl (λ m x, delete (consulapi.ID x) m) m l).
Proof.
  revert m. induction l as [|x l IH]; intros m Hm; [done |].
  simpl. apply IH. by apply map_Forall_delete.
Qed.

End TableLoops.

(** ** Updates *)

Section Updates.

Context {collab : Collaborators}.

Lemma matchesTask_spec (taskID : TaskID) (s : AgentServiceRegistration) :
  matchesTask taskID s = true
  ↔ consulapi.ID s = apps.TaskID_String taskID
    ∨ "marathon-task:" +:+ apps.TaskID_String taskID ∈ consulapi.Tags s.
Proof.
  unfold matchesTask. by rewrite orb_true_iff, String.eqb_eq, contains_spec.
Qed.

Lemma servicesMatchingTask_unfold (c : Stub) (taskID : TaskID) :
  servicesMatchingTask c taskID
  = filter (λ s, matchesTask taskID s) (range_map (services c)).*2.
Proof.
  unfold servicesMatchingTask.
  etrans; [exact (foldl_append_if (λ kv, matchesTask taskID kv.2)
                                  (λ kv, kv.2) _ []) |].
  simpl. generalize (range_map (services c)). intros l.
  induction l as [|[k s] l IH]; [done |].
  rewrite fmap_cons, !filter_cons. simpl.
  destruct (matchesTask taskID s); simpl; [|done].
  f_equal. exact IH.
Qed.

Lemma elem_of_servicesMatchingTask (c : Stub) (taskID : TaskID)
    (s : AgentServiceRegistration) :
  s ∈ servicesMatchingTask c taskID
  ↔ matchesTask taskID s = true ∧ ∃ k, services c !! k = Some s.
Proof.
  rewrite servicesMatchingTask_unfold, list_elem_of_filter, Is_true_true.
  by rewrite elem_of_range_map_values.
Qed.

Lemma servicesMatchingTask_nil (c : Stub) (taskID : TaskID) :
  (∀ k s, services c !! k = Some s → matchesTask taskID s = false) →
  servicesMatchingTask c taskID = [].
Proof.
  intros Hnone. destruct (servicesMatchingTask c taskID) as [|s l] eqn:Hl; [done |].
  assert (Hs : s ∈ servicesMatchingTask c taskID) by (rewrite Hl; by left).
  apply elem_of_servicesMatchingTask in Hs as [Hm [k Hk]].
  rewrite (Hnone k s Hk) in Hm. done.
Qed.

Lemma DeregisterByTask_flagged (c : Stub) (taskID : TaskID) :
  is_Some (failDeregisterByTaskForIDs c !! taskID) →
  DeregisterByTask c taskID
  = (c, Some ("Consul stub programmed to fail when deregistering task of id "
              +:+ apps.TaskID_String taskID)).
Proof. intros [b Hb]. unfold DeregisterByTask. by rewrite Hb. Qed.

Lemma Deregister_flagged (c : Stub) (toDeregister : Service) :
  is_Some (failDeregisterForIDs c !! service.ID toDeregister) →
  Deregister c toDeregister
  = (c, Some ("Consul stub programmed to fail when deregistering service of id "
              +:+ service.ID toDeregister)).
Proof. intros [b Hb]. unfold Deregister. by rewrite Hb. Qed.

Lemma Register_flagged (c : Stub) (task : Task) (app : App) :
  is_Some (failRegisterForIDs c !! Task_ID task) →
  Register c task app
  = (c, Some ("Consul stub programmed to fail when registering task of id "
              +:+ apps.TaskID_String (Task_ID task))).
Proof. intros [b Hb]. unfold Register. by rewrite Hb. Qed.

Lemma Register_stores (c : Stub) (task : Task) (app : App)
    (regs : list AgentServiceRegistration) :
  failRegisterForIDs c !! Task_ID task = None →
  marathonTaskToConsulServices (consul c) task app = (regs, None) →
  Register c task app
  = (with_services c
       (foldl (λ m r, <[consulapi.ID r := r]> m) (services c) regs),
     None).
Proof. intros Hok Hregs. unfold Register. by rewrite Hok, Hregs. Qed.

Lemma DeregisterByTask_lookup (c : Stub) (taskID : TaskID) (k : string) :
  keyed_by_ID (services c) →
  failDeregisterByTaskForIDs c !! taskID = None →
  services (DeregisterByTask c taskID).1 !! k
  = match services c !! k with
    | Some s => if matchesTask taskID s then None else Some s
    | None => None
    end.
Proof.
  intros Hkeyed Hok. unfold DeregisterByTask. rewrite Hok. simpl.
  rewrite foldl_delete_lookup.
  destruct (decide (k ∈ consulapi.ID <$> servicesMatchingTask c taskID))
    as [Hin|Hnin].
  - apply list_elem_of_fmap in Hin as (s & -> & Hs).
    apply elem_of_servicesMatchingTask in Hs as [Hm [k' Hk']].
    rewrite (Hkeyed k' s Hk'), Hk', Hm. done.
  - destruct (services c !! k) as [s|] eqn:Hk; [|done].
    destruct (matchesTask taskID s) eqn:Hm; [|done].
    exfalso. apply Hnin. apply list_elem_of_fmap. exists s. split.
    + symmetry. exact (Hkeyed k s Hk).
    + apply elem_of_servicesMatchingTask. split; [done |]. by exists k.
Qed.

(** *** The table stays keyed by [ID] *)

Lemma exec_call_keyed (c c' : Stub) (k : call) :
  keyed_by_ID (services c) → exec_call c k = Returns c' →
  keyed_by_ID (services c').
Proof.
  intros Hkeyed. destruct k; simpl; try (intros [= <-]; exact Hkeyed).
  - intros [= <-]. unfold Register.
    destruct (failRegisterForIDs c !! Task_ID task); [exact Hkeyed |].
    destruct (marathonTaskToConsulServices _ _ _) as [regs [e|]];
      [exact Hkeyed |].
    by apply foldl_insert_keyed.
  - intros [= <-]. unfold RegisterWithoutMarathonTaskTag. simpl.
    generalize (RegistrationIntents app task
                  (ConsulNameSeparator (config (consul c)))).
    intros l. revert Hkeyed. generalize (services c).
    induction l as [|i l IH]; intros m Hm; [done |].
    simpl. apply IH. by apply map_Forall_insert_2.
  - unfold RegisterOnlyFirstRegistrationIntent.
    destruct (marathonTaskToConsulServices _ _ _) as [regs e].
    destruct (regs !! 0%nat) as [r0|]; [|done].
    intros [= <-]. simpl. by apply map_Forall_insert_2.
  - intros [= <-]. unfold DeregisterByTask.
    destruct (failDeregisterByTaskForIDs c !! taskID); [exact Hkeyed |].
    by apply foldl_delete_keyed.
  - intros [= <-]. unfold Deregister.
    destruct (failDeregisterForIDs c !! _); [exact Hkeyed |].
    by apply map_Forall_delete.
Qed.

Lemma exec_calls_keyed (ks : list call) (c c' : Stub) :
  keyed_by_ID (services c) → exec_calls c ks = Returns c' →
  keyed_by_ID (services c').
Proof.
  revert c. induction ks as [|k ks IH]; intros c Hkeyed; simpl.
  - by intros [= <-].
  - destruct (exec_call c k) as [c1|] eqn:Hk; [|done].
    apply IH. by eapply exec_call_keyed.
Qed.

Lemma reachable_keyed (c : Stub) : reachable c → keyed_by_ID (services c).
Proof.
  intros (tag & ks & Hks). eapply exec_calls_keyed; [|exact Hks].
  apply map_Forall_empty.
Qed.

(** *** Flags are never cleared *)

Lemma flags_kept_refl (c : Stub) : flags_kept c c.
Proof. by repeat split. Qed.

Lemma flags_kept_trans (c1 c2 c3 : Stub) :
  flags_kept c1 c2 → flags_kept c2 c3 → flags_kept c1 c3.
Proof.
  intros (A1 & B1 & C1 & D1) (A2 & B2 & C2 & D2).
  repeat split; intros x Hx; eauto.
Qed.

Lemma flags_kept_with_services (c : Stub)
    (m : gmap string AgentServiceRegistration) :
  flags_kept c (with_services c m).
Proof. by repeat split. Qed.

Lemma exec_call_flags_kept (c c' : Stub) (k : call) :
  exec_call c k = Returns c' → flags_kept c c'.
Proof.
  destruct k; simpl; try (intros [= <-]; apply flags_kept_refl).
  - intros [= <-]. repeat split; simpl; try done.
    intros x Hx. apply lookup_insert_is_Some.
    destruct (decide (failOnName = x)); [by left | by right].
  - intros [= <-]. repeat split; simpl; try done.
    intros x Hx. apply lookup_insert_is_Some.
    destruct (decide (taskID = x)); [by left | by right].
  - intros [= <-]. repeat split; simpl; try done.
    intros x Hx. apply lookup_insert_is_Some.
    destruct (decide (taskID = x)); [by left | by right].
  - intros [= <-]. repeat split; simpl; try done.
    intros x Hx. apply lookup_insert_is_Some.
    destruct (decide (serviceID = x)); [by left | by right].
  - intros [= <-]. unfold Register.
    destruct (failRegisterForIDs c !! Task_ID task); [apply flags_kept_refl |].
    destruct (marathonTaskToConsulServices _ _ _) as [regs [e|]];
      [apply flags_kept_refl | apply flags_kept_with_services].
  - intros [= <-]. apply flags_kept_with_services.
  - unfold RegisterOnlyFirstRegistrationIntent.
    destruct (marathonTaskToConsulServices _ _ _) as [regs e].
    destruct (regs !! 0%nat) as [r0|]; [|done].
    intros [= <-]. apply flags_kept_with_services.
  - intros [= <-]. unfold DeregisterByTask.
    destruct (failDeregisterByTaskForIDs c !! taskID);
      [apply flags_kept_refl | apply flags_kept_with_services].
  - intros [= <-]. unfold Deregister.
    destruct (failDeregisterForIDs c !! _);
      [apply flags_kept_refl | apply flags_kept_with_services].
Qed.

Lemma exec_calls_flags_kept (ks : list call) (c c' : Stub) :
  exec_calls c ks = Returns c' → flags_kept c c'.
Proof.
  revert c. induction ks as [|k ks IH]; intros c; simpl.
  - intros [= <-]. apply flags_kept_refl.
  - destruct (exec_call c k) as [c1|] eqn:Hk; [|done].
    intros Hks. eapply flags_kept_trans; [by eapply exec_call_flags_kept |].
    by apply IH.
Qed.

End Updates.

(** ** Claims on updates and injected failures *)

Section UpdateClaims.

Context {collab : Collaborators}.

(** C3: for each of the four operations with a failure-injection set
    ([GetServices], [Register], [DeregisterByTask], [Deregister]) and each
    key present in that operation's set, the call returns an error whose
    message names the key, and the stub after the call (the table and the
    four failure sets) is the stub before it. *)
Theorem injected_failure_has_no_side_effect (c : Stub) :
  (∀ name, is_Some (failGetServicesForNames c !! name) →
     GetServices c name
     = ([], Some ("Consul stub programmed to fail when getting services for name "
                  +:+ name))
     ∧ (∃ msg, (GetServices c name).2 = Some msg ∧ mentions msg name)
     ∧ exec_call c (CallGetServices name) = Returns c)
  ∧ (∀ task app, is_Some (failRegisterForIDs c !! Task_ID task) →
     Register c task app
     = (c, Some ("Consul stub programmed to fail when registering task of id "
                 +:+ apps.TaskID_String (Task_ID task)))
     ∧ (∃ msg, (Register c task app).2 = Some msg
               ∧ mentions msg (apps.TaskID_String (Task_ID task))))
  ∧ (∀ taskID, is_Some (failDeregisterByTaskForIDs c !! taskID) →
     DeregisterByTask c taskID
     = (c, Some ("Consul stub programmed to fail when deregistering task of id "
                 +:+ apps.TaskID_String taskID))
     ∧ (∃ msg, (DeregisterByTask c taskID).2 = Some msg
               ∧ mentions msg (apps.TaskID_String taskID)))
  ∧ (∀ toDeregister,
       is_Some (failDeregisterForIDs c !! service.ID toDeregister) →
     Deregister c toDeregister
     = (c, Some ("Consul stub programmed to fail when deregistering service of id "
                 +:+ service.ID toDeregister))
     ∧ (∃ msg, (Deregister c toDeregister).2 = Some msg
               ∧ mentions msg (service.ID toDeregister))).
Proof.
  split_and!.
  - intros name Hflag. rewrite (GetServices_flagged _ _ Hflag).
    split_and!; [done | | done].
    eexists. split; [done |]. apply mentions_suffix.
  - intros task app Hflag. rewrite (Register_flagged _ _ _ Hflag).
    split; [done |]. eexists. split; [done |]. apply mentions_suffix.
  - intros taskID Hflag. rewrite (DeregisterByTask_flagged _ _ Hflag).
    split; [done |]. eexists. split; [done |]. apply mentions_suffix.
  - intros s Hflag. rewrite (Deregister_flagged _ _ Hflag).
    split; [done |]. eexists. split; [done |]. apply mentions_suffix.
Qed.

(** C5: in every state the stub can reach and for every task identifier
    not in the fail-deregister-by-task set, [DeregisterByTask] succeeds and
    removes from the table exactly the entries that match the task, by
    their id being the identifier's string form or by their tags
    containing [marathon-task:<taskID>] (both forms in the one call); every
    other entry stays as it was, and the failure sets and the configuration
    are untouched. *)
Theorem DeregisterByTask_removes_exactly_matching (c : Stub) (taskID : TaskID) :
  reachable c →
  failDeregisterByTaskForIDs c !! taskID = None →
  ∃ c', DeregisterByTask c taskID = (c', None)
    ∧ (∀ k s, services c !! k = Some s →
         consulapi.ID s = apps.TaskID_String taskID
         ∨ "marathon-task:" +:+ apps.TaskID_String taskID ∈ consulapi.Tags s →
         services c' !! k = None)
    ∧ (∀ k s, services c !! k = Some s →
         ¬ (consulapi.ID s = apps.TaskID_String taskID
            ∨ "marathon-task:" +:+ apps.TaskID_String taskID ∈ consulapi.Tags s) →
         services c' !! k = Some s)
    ∧ (∀ k, services c !! k = None → services c' !! k = None)
    ∧ failGetServicesForNames c' = failGetServicesForNames c
    ∧ failRegisterForIDs c' = failRegisterForIDs c
    ∧ failDeregisterByTaskForIDs c' = failDeregisterByTaskForIDs c
    ∧ failDeregisterForIDs c' = failDeregisterForIDs c
    ∧ consul c' = consul c.
Proof.
  intros Hreach Hok. apply reachable_keyed in Hreach.
  pose proof (λ k, DeregisterByTask_lookup c taskID k Hreach Hok) as Hlook.
  exists (DeregisterByTask c taskID).1. split_and!.
  - unfold DeregisterByTask. by rewrite Hok.
  - intros k s Hk Hm. apply matchesTask_spec in Hm.
    by rewrite Hlook, Hk, Hm.
  - intros k s Hk Hm. rewrite Hlook, Hk.
    destruct (matchesTask taskID s) eqn:Hms; [|done].
    by apply matchesTask_spec in Hms.
  - intros k Hk. by rewrite Hlook, Hk.
  - unfold DeregisterByTask. by rewrite Hok.
  - unfold DeregisterByTask. by rewrite Hok.
  - unfold DeregisterByTask. by rewrite Hok.
  - unfold DeregisterByTask. by rewrite Hok.
  - unfold DeregisterByTask. by rewrite Hok.
Qed.

(** C6: [Register] is idempotent. For a task whose identifier is not in
    the fail-register set and whose extraction succeeds (extraction is a
    function of the configuration, the task and the app), the first call
    succeeds, and a second call right after it succeeds and leaves the stub
    as the first call left it. Each registration is stored under its id,
    overwriting what was there: after the call a key holds the last
    extracted registration with that id, or what it held before when there
    is none, so the keys are the old ones and the extracted ids. *)
Theorem Register_idempotent (c : Stub) (task : Task) (app : App)
    (regs : list AgentServiceRegistration) :
  failRegisterForIDs c !! Task_ID task = None →
  marathonTaskToConsulServices (consul c) task app = (regs, None) →
  ∃ c1, Register c task app = (c1, None)
    ∧ Register c1 task app = (c1, None)
    ∧ (∀ k, services c1 !! k
            = match last_with_ID k regs with
              | Some r => Some r
              | None => services c !! k
              end)
    ∧ dom (services c1)
      = dom (services c) ∪ list_to_set (consulapi.ID <$> regs).
Proof.
  intros Hok Hregs. eexists. split; [by apply Register_stores |].
  split_and!.
  - rewrite (Register_stores _ task app regs); [| done | done].
    simpl. by rewrite foldl_insert_twice.
  - intros k. apply foldl_insert_lookup.
  - apply foldl_insert_dom.
Qed.

(** C7: injected failures are permanent. No call removes a key from any of
    the four failure sets. After [FailRegisterForID(taskID)], in every
    state reached by any sequence of calls, [Register] for a task with
    that identifier fails and leaves the stub as it was. For a task with
    another identifier, the flag changes neither the error result of
    [Register] nor the table it leaves. *)
Theorem injected_failures_are_permanent :
  (∀ c ks c', exec_calls c ks = Returns c' → flags_kept c c')
  ∧ (∀ c taskID ks c' task app,
       exec_calls (FailRegisterForID c taskID) ks = Returns c' →
       Task_ID task = taskID →
       Register c' task app
       = (c', Some ("Consul stub programmed to fail when registering task of id "
                    +:+ apps.TaskID_String taskID)))
  ∧ (∀ c taskID task app,
       Task_ID task ≠ taskID →
       (Register (FailRegisterForID c taskID) task app).2
       = (Register c task app).2
       ∧ services (Register (FailRegisterForID c taskID) task app).1
         = services (Register c task app).1).
Proof.
  split_and!.
  - intros c ks c'. apply exec_calls_flags_kept.
  - intros c taskID ks c' task app Hks <-.
    apply exec_calls_flags_kept in Hks as (_ & Hreg & _).
    rewrite Register_flagged; [done |]. apply Hreg. simpl.
    rewrite lookup_insert_eq. by eexists.
  - intros c taskID task app Hne. unfold Register. simpl.
    rewrite lookup_insert_ne by done.
    destruct (failRegisterForIDs c !! Task_ID task); [done |].
    destruct (marathonTaskToConsulServices _ _ _) as [regs [e|]]; done.
Qed.

(** C8: absence is not an error. [Deregister] on an entry whose id is
    neither in the table nor in the fail-deregister set returns nil and
    leaves the stub unchanged; [DeregisterByTask] on a task identifier that
    is not in its fail set and that no entry of the table matches returns
    nil and leaves the stub unchanged. *)
Theorem absence_is_not_an_error (c : Stub) :
  (∀ toDeregister,
     failDeregisterForIDs c !! service.ID toDeregister = None →
     services c !! service.ID toDeregister = None →
     Deregister c toDeregister = (c, None))
  ∧ (∀ taskID,
       failDeregisterByTaskForIDs c !! taskID = None →
       (∀ k s, services c !! k = Some s →
          ¬ (consulapi.ID s = apps.TaskID_String taskID
             ∨ "marathon-task:" +:+ apps.TaskID_String taskID
               ∈ consulapi.Tags s)) →
       servicesMatchingTask c taskID = []
       ∧ DeregisterByTask c taskID = (c, None)).
Proof.
  split.
  - intros s Hok Habs. unfold Deregister. rewrite Hok.
    by rewrite delete_id, with_services_id.
  - intros taskID Hok Hnone.
    assert (Hnil : servicesMatchingTask c taskID = []).
    { apply servicesMatchingTask_nil. intros k s Hk.
      destruct (matchesTask taskID s) eqn:Hm; [|done].
      apply matchesTask_spec in Hm. by destruct (Hnone k s Hk). }
    split; [done |]. unfold DeregisterByTask. rewrite Hok, Hnil. simpl.
    by rewrite with_services_id.
Qed.

(** C10: the injected-failure check comes before the no-op path. When the
    id of the service is in the fail-deregister set, [Deregister] returns
    an error even if the table has no entry with that id; when the task
    identifier is in the fail-deregister-by-task set, [DeregisterByTask]
    returns an error even if no entry matches the task. In both cases the
    stub is left as it was. *)
Theorem injected_failure_precedes_noop (c : Stub) :
  (∀ toDeregister,
     is_Some (failDeregisterForIDs c !! service.ID toDeregister) →
     services c !! service.ID toDeregister = None →
     ∃ msg, Deregister c toDeregister = (c, Some msg))
  ∧ (∀ taskID,
       is_Some (failDeregisterByTaskForIDs c !! taskID) →
       servicesMatchingTask c taskID = [] →
       ∃ msg, DeregisterByTask c taskID = (c, Some msg)).
Proof.
  split.
  - intros s Hflag _. rewrite (Deregister_flagged _ _ Hflag). by eexists.
  - intros taskID Hflag _. rewrite (DeregisterByTask_flagged _ _ Hflag).
    by eexists.
Qed.

(** [RegisterOnlyFirstRegistrationIntent] stores the first extracted
    registration when there is one, whatever the error result of the
    extraction, and panics when there is none. *)
Lemma RegisterOnlyFirstRegistrationIntent_cases (c : Stub) (task : Task)
    (app : App) :
  match marathonTaskToConsulServices (consul c) task app with
  | (r0 :: _, _) =>
      RegisterOnlyFirstRegistrationIntent c task app
      = Returns (with_services c (<[consulapi.ID r0 := r0]> (services c)))
  | ([], _) => RegisterOnlyFirstRegistrationIntent c task app = Panics
  end.
Proof.
  unfold RegisterOnlyFirstRegistrationIntent.
  by destruct (marathonTaskToConsulServices _ _ _) as [[|r0 regs] e].
Qed.

End UpdateClaims.

(** ** The claims on the example data *)

Lemma stub_web_reachable : reachable stub_web.
Proof. exists "marathon", [CallRegister (collab := scripted) task_t1 app_web]. reflexivity. Qed.

Lemma GetAllServices_returns_every_entry_witness :
  services stub_web !! "t2_web_9090" = Some web_foreign
  ∧ (GetAllServices stub_web).2 = None
  ∧ length (GetAllServices stub_web).1 = 3%nat
  ∧ toService web_foreign ∈ (GetAllServices stub_web).1.
Proof.
  split; [reflexivity |].
  destruct (GetAllServices_returns_every_entry stub_web)
    as (Herr & _ & Hlen & Hall & _).
  split; [exact Herr |]. split; [rewrite Hlen; reflexivity |].
  destruct (Hall "t2_web_9090" web_foreign eq_refl)
    as (s & Hs & Hid & Hname & Htags & Haddr).
  destruct s as [i n t a]. simpl in *. subst. exact Hs.
Defined.

Lemma GetServices_scoped_by_name_and_tag_witness :
  failGetServicesForNames stub_web !! "web" = None
  ∧ is_Some (failGetServicesForNames (FailGetServicesForName stub_web "web") !! "web")
  ∧ (GetServices stub_web "web").2 = None
  ∧ toService web_linked ∈ (GetServices stub_web "web").1
  ∧ (toService web_foreign ∉ (GetServices stub_web "web").1)
  ∧ ∃ msg, GetServices (FailGetServicesForName stub_web "web") "web"
           = ([], Some msg) ∧ mentions msg "web".
Proof.
  split; [reflexivity |]. split; [by eexists |].
  destruct (GetServices_scoped_by_name_and_tag stub_web "web") as [Hok _].
  destruct (Hok eq_refl) as (Herr & _ & Hmem & Htag).
  split; [exact Herr |]. split.
  - apply Hmem. exists "t1_web_8080", web_linked.
    repeat split; try reflexivity. simpl. by left.
  - split.
    + intros Hin. apply Htag in Hin. simpl in Hin.
      apply elem_of_cons in Hin as [Heq | Hin]; [discriminate Heq |].
      apply elem_of_cons in Hin as [Heq | Hin]; [discriminate Heq |].
      by apply elem_of_nil in Hin.
    + destruct (GetServices_scoped_by_name_and_tag
                  (FailGetServicesForName stub_web "web") "web") as [_ Hfail].
      apply Hfail. by eexists.
Defined.

Lemma RegisteredTaskIDs_one_identifier_per_entry_witness :
  failGetServicesForNames stub_web !! "web" = None
  ∧ is_Some (failGetServicesForNames (FailGetServicesForName stub_web "web") !! "web")
  ∧ length (RegisteredTaskIDs stub_web "web") = 2%nat
  ∧ RegisteredTaskIDs (FailGetServicesForName stub_web "web") "web" = [].
Proof.
  split; [reflexivity |]. split; [by eexists |]. split.
  - destruct (RegisteredTaskIDs_one_identifier_per_entry stub_web "web")
      as (_ & _ & Hlen & _).
    rewrite (Hlen eq_refl). reflexivity.
  - destruct (RegisteredTaskIDs_one_identifier_per_entry
                (FailGetServicesForName stub_web "web") "web")
      as (_ & _ & _ & Hnil).
    apply Hnil. by eexists.
Defined.

(** C1 (as stated) fails: the one entry of [stub_unlinked] has no link
    tag, so its tags yield no task identifier, and yet it contributes an
    identifier (the empty one) to the result instead of being left out. *)
Lemma RegisteredTaskIDs_keeps_unparseable_entry :
  (GetServices stub_unlinked "web").1 = [toService web_by_id]
  ∧ Service_TaskID (toService web_by_id) = ("", Some "marathon-task tag missing")
  ∧ RegisteredTaskIDs stub_unlinked "web" = [""]
  ∧ RegisteredTaskIDs_omitting stub_unlinked "web" = []
  ∧ ¬ (RegisteredTaskIDs stub_unlinked "web"
       ≡ₚ RegisteredTaskIDs_omitting stub_unlinked "web").
Proof.
  split_and!; try reflexivity.
  change (¬ ([""] ≡ₚ [])). intros Hperm.
  by apply Permutation_length in Hperm.
Qed.

(** C2: with an app whose extraction fails (no registrations, an error),
    [RegisterOnlyFirstRegistrationIntent] drops the error and then indexes
    the empty slice: it panics instead of completing. *)
Theorem RegisterOnlyFirstRegistrationIntent_panics_on_failed_extraction :
  marathonTaskToConsulServices (consul NewConsulStub) task_t1 app_unresolvable
  = ([], Some "cannot resolve host")
  ∧ RegisterOnlyFirstRegistrationIntent NewConsulStub task_t1 app_unresolvable
    = Panics.
Proof. split; reflexivity. Qed.

Lemma injected_failure_has_no_side_effect_witness :
  let c := FailDeregisterForID
             (FailDeregisterByTaskForID
                (FailRegisterForID (FailGetServicesForName stub_web "web") "t1")
                "t1")
             "t1_web_8080" in
  is_Some (failGetServicesForNames c !! "web")
  ∧ is_Some (failRegisterForIDs c !! Task_ID task_t1)
  ∧ is_Some (failDeregisterByTaskForIDs c !! "t1")
  ∧ is_Some (failDeregisterForIDs c !! service.ID (toService web_linked))
  ∧ (GetServices c "web").1 = []
  ∧ (Register c task_t1 app_web).1 = c
  ∧ (DeregisterByTask c "t1").1 = c
  ∧ (Deregister c (toService web_linked)).1 = c.
Proof.
  intros c.
  assert (H1 : is_Some (failGetServicesForNames c !! "web")) by (by eexists).
  assert (H2 : is_Some (failRegisterForIDs c !! Task_ID task_t1))
    by (by eexists).
  assert (H3 : is_Some (failDeregisterByTaskForIDs c !! "t1")) by (by eexists).
  assert (H4 : is_Some (failDeregisterForIDs c
                          !! service.ID (toService web_linked)))
    by (by eexists).
  destruct (injected_failure_has_no_side_effect (collab := scripted) c) as (G & R & DT & D).
  destruct (G "web" H1) as (-> & _ & _).
  destruct (R task_t1 app_web H2) as (-> & _).
  destruct (DT "t1" H3) as (-> & _).
  destruct (D (toService web_linked) H4) as (-> & _).
  repeat split; assumption.
Defined.

Lemma DeregisterByTask_removes_exactly_matching_witness :
  reachable stub_web
  ∧ failDeregisterByTaskForIDs stub_web !! "t1" = None
  ∧ services stub_web !! "t1" = Some web_by_id
  ∧ services stub_web !! "t1_web_8080" = Some web_linked
  ∧ services stub_web !! "t2_web_9090" = Some web_foreign
  ∧ ∃ c', DeregisterByTask stub_web "t1" = (c', None)
      ∧ services c' !! "t1" = None
      ∧ services c' !! "t1_web_8080" = None
      ∧ services c' !! "t2_web_9090" = Some web_foreign.
Proof.
  split; [exact stub_web_reachable |]. repeat (split; [reflexivity |]).
  destruct (DeregisterByTask_removes_exactly_matching stub_web "t1"
              stub_web_reachable eq_refl)
    as (c' & Hc' & Hgone & Hkept & _).
  exists c'. split; [exact Hc' |]. split_and!.
  - apply (Hgone "t1" web_by_id eq_refl). by left.
  - apply (Hgone "t1_web_8080" web_linked eq_refl). right. simpl.
    right. by left.
  - apply (Hkept "t2_web_9090" web_foreign eq_refl). simpl.
    intros [Heq | Hin]; [discriminate Heq |].
    apply elem_of_cons in Hin as [Heq | Hin]; [discriminate Heq |].
    apply elem_of_cons in Hin as [Heq | Hin]; [discriminate Heq |].
    by apply elem_of_nil in Hin.
Defined.

Lemma Register_idempotent_witness :
  failRegisterForIDs NewConsulStub !! Task_ID task_t1 = None
  ∧ marathonTaskToConsulServices (consul NewConsulStub) task_t1 app_web
    = ([web_linked; web_by_id; web_foreign], None)
  ∧ Register stub_web task_t1 app_web = (stub_web, None)
  ∧ dom (services stub_web) = {["t1_web_8080"; "t1"; "t2_web_9090"]}.
Proof.
  split; [reflexivity |]. split; [reflexivity |].
  destruct (Register_idempotent (collab := scripted) NewConsulStub task_t1 app_web
              [web_linked; web_by_id; web_foreign] eq_refl eq_refl)
    as (c1 & Hc1 & Hagain & _ & Hdom).
  assert (c1 = stub_web) as -> by (unfold stub_web; by rewrite Hc1).
  split; [exact Hagain |]. rewrite Hdom. simpl.
  rewrite dom_empty_L. set_solver.
Defined.

Lemma injected_failures_are_permanent_witness :
  Task_ID task_t1 = "t1"
  ∧ Task_ID task_t2 ≠ "t1"
  ∧ (∃ c', exec_calls (FailRegisterForID NewConsulStub "t1") later_calls
           = Returns c'
           ∧ services c' !! "t1" = Some web_by_id
           ∧ services c' !! "t1_web_8080" = None
           ∧ ∃ msg, Register c' task_t1 app_web = (c', Some msg))
  ∧ (Register (FailRegisterForID NewConsulStub "t1") task_t2 app_web).2 = None.
Proof.
  split; [reflexivity |]. split; [discriminate |].
  destruct (injected_failures_are_permanent (collab := scripted))
    as (_ & Hperm & Hother).
  split.
  - eexists. split; [reflexivity |]. split; [reflexivity |].
    split; [reflexivity |]. eexists.
    apply (Hperm NewConsulStub "t1" later_calls); reflexivity.
  - destruct (Hother NewConsulStub "t1" task_t2 app_web) as [-> _];
      [discriminate | reflexivity].
Defined.

Lemma absence_is_not_an_error_witness :
  failDeregisterForIDs stub_unlinked !! "t9" = None
  ∧ services stub_unlinked !! "t9" = None
  ∧ failDeregisterByTaskForIDs stub_unlinked !! "t9" = None
  ∧ map_Forall (λ _ s, ¬ (consulapi.ID s = apps.TaskID_String "t9"
                          ∨ "marathon-task:" +:+ apps.TaskID_String "t9"
                            ∈ consulapi.Tags s))
               (services stub_unlinked)
  ∧ Deregister stub_unlinked
      {| service.ID := "t9"; service.Name := "web";
         service.Tags := []; service.AgentAddress := "" |}
    = (stub_unlinked, None)
  ∧ DeregisterByTask stub_unlinked "t9" = (stub_unlinked, None).
Proof.
  repeat (split; [reflexivity |]).
  assert (Hnone : map_Forall
            (λ _ s, ¬ (consulapi.ID s = apps.TaskID_String "t9"
                       ∨ "marathon-task:" +:+ apps.TaskID_String "t9"
                         ∈ consulapi.Tags s))
            (services stub_unlinked)).
  { apply (bool_decide_unpack _). vm_compute. exact I. }
  split; [exact Hnone |].
  destruct (absence_is_not_an_error stub_unlinked) as [Hd Hdt]. split.
  - apply Hd; reflexivity.
  - apply Hdt; [reflexivity | exact Hnone].
Defined.

Lemma injected_failure_precedes_noop_witness :
  let c := FailDeregisterByTaskForID (FailDeregisterForID stub_unlinked "t9") "t9" in
  let gone := {| service.ID := "t9"; service.Name := "web";
                 service.Tags := []; service.AgentAddress := "" |} in
  is_Some (failDeregisterForIDs c !! service.ID gone)
  ∧ services c !! service.ID gone = None
  ∧ is_Some (failDeregisterByTaskForIDs c !! "t9")
  ∧ servicesMatchingTask c "t9" = []
  ∧ (∃ msg, Deregister c gone = (c, Some msg))
  ∧ (∃ msg, DeregisterByTask c "t9" = (c, Some msg)).
Proof.
  intros c gone.
  assert (H1 : is_Some (failDeregisterForIDs c !! service.ID gone))
    by (by eexists).
  assert (H2 : is_Some (failDeregisterByTaskForIDs c !! "t9")) by (by eexists).
  split; [exact H1 |]. split; [reflexivity |]. split; [exact H2 |].
  split; [reflexivity |].
  destruct (injected_failure_precedes_noop c) as [Hd Hdt]. split.
  - apply Hd; [exact H1 | reflexivity].
  - apply Hdt; [exact H2 | reflexivity].
Defined.

(** * Further properties of the stub *)

(** ** Construction, configuration and the shape of the table *)

Section Shape.

Context {collab : Collaborators}.

Lemma range_map_empty : range_map ∅ = [].
Proof.
  apply Permutation_nil_r. by rewrite range_map_perm, map_to_list_empty.
Qed.

Lemma exec_call_consul (c c' : Stub) (k : call) :
  exec_call c k = Returns c' → consul c' = consul c.
Proof.
  destruct k; simpl; try (by intros [= <-]).
  - intros [= <-]. unfold Register.
    destruct (failRegisterForIDs c !! Task_ID task); [done |].
    by destruct (marathonTaskToConsulServices _ _ _) as [regs [e|]].
  - unfold RegisterOnlyFirstRegistrationIntent.
    destruct (marathonTaskToConsulServices _ _ _) as [regs e].
    destruct (regs !! 0%nat) as [r0|]; [|done]. by intros [= <-].
  - intros [= <-]. unfold DeregisterByTask.
    by destruct (failDeregisterByTaskForIDs c !! taskID).
  - intros [= <-]. unfold Deregister.
    by destruct (failDeregisterForIDs c !! _).
Qed.

Lemma exec_calls_consul (ks : list call) (c c' : Stub) :
  exec_calls c ks = Returns c' → consul c' = consul c.
Proof.
  revert c. induction ks as [|k ks IH]; intros c; simpl.
  - by intros [= <-].
  - destruct (exec_call c k) as [c1|] eqn:Hk; [|done].
    intros Hks. rewrite (IH _ Hks). by eapply exec_call_consul.
Qed.

Lemma keyed_values_IDs (m : gmap string AgentServiceRegistration) :
  keyed_by_ID m → consulapi.ID <$> (map_to_list m).*2 = (map_to_list m).*1.
Proof.
  intros Hkeyed.
  assert (Hall : ∀ kv, kv ∈ map_to_list m → consulapi.ID kv.2 = kv.1).
  { intros [k r] Hin%elem_of_map_to_list. exact (Hkeyed k r Hin). }
  revert Hall. generalize (map_to_list m). intros l Hall.
  induction l as [|kv l IH]; [done |].
  rewrite !fmap_cons. f_equal.
  - apply Hall. by left.
  - apply IH. intros kv' Hin. apply Hall. by right.
Qed.

Lemma toService_IDs (l : list AgentServiceRegistration) :
  service.ID <$> (toService <$> l) = consulapi.ID <$> l.
Proof. induction l as [|r l IH]; [done |]. rewrite !fmap_cons. by f_equal. Qed.

Lemma filter_toService (P : Service → Prop) `{!∀ s, Decision (P s)}
    (l : list AgentServiceRegistration) :
  filter P (toService <$> l) = toService <$> filter (λ r, P (toService r)) l.
Proof.
  induction l as [|r l IH]; [done |].
  rewrite fmap_cons, !filter_cons. destruct (decide (P (toService r))).
  - by rewrite fmap_cons, IH.
  - exact IH.
Qed.

(** X1: a stub fresh from its constructor holds the given tag and the
    separator [.], has an empty table and no injected failure: the queries
    succeed with no entries and both deregistrations succeed and change
    nothing. The constructor without argument uses the tag [marathon]. *)
Theorem NewConsulStubWithTag_starts_empty (tag : string) :
  Tag (config (consul (NewConsulStubWithTag tag))) = tag
  ∧ ConsulNameSeparator (config (consul (NewConsulStubWithTag tag))) = "."
  ∧ Tag (config (consul NewConsulStub)) = "marathon"
  ∧ GetAllServices (NewConsulStubWithTag tag) = ([], None)
  ∧ (∀ name, GetServices (NewConsulStubWithTag tag) name = ([], None))
  ∧ (∀ name, RegisteredTaskIDs (NewConsulStubWithTag tag) name = [])
  ∧ (∀ taskID, DeregisterByTask (NewConsulStubWithTag tag) taskID
               = (NewConsulStubWithTag tag, None))
  ∧ (∀ toDeregister, Deregister (NewConsulStubWithTag tag) toDeregister
                     = (NewConsulStubWithTag tag, None)).
Proof.
  assert (Hget : ∀ name, GetServices (NewConsulStubWithTag tag) name = ([], None)).
  { intros name. rewrite GetServices_unfold by apply lookup_empty.
    simpl. by rewrite range_map_empty. }
  split_and!; [done | done | done | | exact Hget | | |].
  - rewrite GetAllServices_unfold. simpl. by rewrite range_map_empty.
  - intros name. by rewrite RegisteredTaskIDs_unfold, Hget.
  - intros taskID. unfold DeregisterByTask. simpl. rewrite lookup_empty.
    rewrite servicesMatchingTask_unfold. simpl. by rewrite range_map_empty.
  - intros s. unfold Deregister. simpl. rewrite lookup_empty.
    by rewrite delete_empty.
Qed.

(** X2: no call changes the configuration. Along any sequence of calls
    that runs to its end the stub keeps the [Consul] client it was built
    with; a stub built with a tag filters [GetServices] by that tag for
    its whole life. *)
Theorem configuration_is_fixed :
  (∀ c ks c', exec_calls c ks = Returns c' → consul c' = consul c)
  ∧ (∀ tag ks c,
       exec_calls (NewConsulStubWithTag tag) ks = Returns c →
       Tag (config (consul c)) = tag
       ∧ ConsulNameSeparator (config (consul c)) = ".").
Proof.
  split.
  - intros c ks c'. apply exec_calls_consul.
  - intros tag ks c Hks. by rewrite (exec_calls_consul _ _ _ Hks).
Qed.

(** X3: in every state the stub can reach, the services returned by
    [GetAllServices] have pairwise distinct ids, each is the translation of
    the entry stored under its id, and the services returned by
    [GetServices] have pairwise distinct ids too. *)
Theorem reachable_services_have_distinct_ids (c : Stub) :
  reachable c →
  NoDup (service.ID <$> (GetAllServices c).1)
  ∧ (∀ s, s ∈ (GetAllServices c).1 →
       ∃ r, services c !! service.ID s = Some r ∧ s = toService r)
  ∧ (∀ name, NoDup (service.ID <$> (GetServices c name).1)).
Proof.
  intros Hkeyed%reachable_keyed.
  assert (Hnodup : NoDup (consulapi.ID <$> (range_map (services c)).*2)).
  { rewrite range_map_perm, (keyed_values_IDs _ Hkeyed).
    apply NoDup_fst_map_to_list. }
  split_and!.
  - by rewrite GetAllServices_unfold; simpl; rewrite toService_IDs.
  - rewrite GetAllServices_unfold. simpl.
    intros s (r & -> & Hr)%list_elem_of_fmap.
    apply elem_of_range_map_values in Hr as [k Hk]. exists r. split; [|done].
    simpl. by rewrite (Hkeyed k r Hk).
  - intros name. destruct (failGetServicesForNames c !! name) as [b|] eqn:Hflag.
    + rewrite GetServices_flagged by (by eexists). apply NoDup_nil_2.
    + rewrite (GetServices_unfold _ _ Hflag). simpl. rewrite toService_IDs.
      eapply sublist_NoDup; [exact Hnodup |].
      apply fmap_sublist, sublist_filter.
Qed.

(** X4: when [name] is not in the fail-get-by-name set, the services
    returned by [GetServices] are, up to order, those returned by
    [GetAllServices] whose name is [name] and whose tags contain the
    registry tag; so there are at most as many of them. *)
Theorem GetServices_selects_from_GetAllServices (c : Stub) (name : string) :
  failGetServicesForNames c !! name = None →
  (GetServices c name).1
    ≡ₚ filter (λ s, service.Name s = name
                    ∧ Tag (config (consul c)) ∈ service.Tags s)
              (GetAllServices c).1
  ∧ (length (GetServices c name).1 ≤ length (GetAllServices c).1)%nat.
Proof.
  intros Hok. rewrite (GetServices_unfold _ _ Hok), GetAllServices_unfold.
  simpl. rewrite filter_ownedByName. split.
  - by rewrite filter_toService.
  - rewrite !(length_fmap toService). apply length_filter.
Qed.

End Shape.

(** ** What a flag changes and what it leaves alone *)

Section Flags.

Context {collab : Collaborators}.

(** Unfolds the methods on a stub built by a setter and decides the
    remaining lookups in the failure sets. *)
Ltac frame_setter :=
  unfold Register, Deregister, DeregisterByTask, GetServices, GetAllServices,
    RegisterOnlyFirstRegistrationIntent, RegisterWithoutMarathonTaskTag,
    servicesMatchingTask;
  simpl;
  repeat match goal with
         | |- context [match ?m !! ?k with _ => _ end] => destruct (m !! k)
         | |- context [let '(_, _) := ?p in _] => destruct p
         | |- context [match ?e with Some _ => _ | None => _ end] => destruct e
         end;
  try done.

(** X5: [FailGetServicesForName] makes [GetServices] fail for that name
    from the next call on, with an error naming it, and [RegisteredTaskIDs]
    return no identifier for it. For any other name [GetServices] answers
    as before; [GetAllServices] answers as before; [Register],
    [DeregisterByTask] and [Deregister] act as before. Setting the flag
    twice is setting it once. *)
Theorem FailGetServicesForName_affects_only_that_name (c : Stub)
    (failOnName : string) :
  (∃ msg, GetServices (FailGetServicesForName c failOnName) failOnName
          = ([], Some msg) ∧ mentions msg failOnName)
  ∧ RegisteredTaskIDs (FailGetServicesForName c failOnName) failOnName = []
  ∧ (∀ name, name ≠ failOnName →
       GetServices (FailGetServicesForName c failOnName) name
       = GetServices c name)
  ∧ GetAllServices (FailGetServicesForName c failOnName) = GetAllServices c
  ∧ (∀ task app,
       Register (FailGetServicesForName c failOnName) task app
       = (FailGetServicesForName (Register c task app).1 failOnName,
          (Register c task app).2))
  ∧ (∀ taskID,
       DeregisterByTask (FailGetServicesForName c failOnName) taskID
       = (FailGetServicesForName (DeregisterByTask c taskID).1 failOnName,
          (DeregisterByTask c taskID).2))
  ∧ (∀ toDeregister,
       Deregister (FailGetServicesForName c failOnName) toDeregister
       = (FailGetServicesForName (Deregister c toDeregister).1 failOnName,
          (Deregister c toDeregister).2))
  ∧ FailGetServicesForName (FailGetServicesForName c failOnName) failOnName
    = FailGetServicesForName c failOnName.
Proof.
  assert (Hfail : GetServices (FailGetServicesForName c failOnName) failOnName
    = ([], Some ("Consul stub programmed to fail when getting services for name "
                 +:+ failOnName))).
  { apply GetServices_flagged. simpl. rewrite lookup_insert_eq. by eexists. }
  split_and!.
  - eexists. split; [exact Hfail |]. apply mentions_suffix.
  - by rewrite RegisteredTaskIDs_unfold, Hfail.
  - intros name Hne. unfold GetServices. simpl.
    by rewrite lookup_insert_ne.
  - done.
  - intros task app. frame_setter.
  - intros taskID. frame_setter.
  - intros s. frame_setter.
  - unfold FailGetServicesForName. simpl. by rewrite insert_insert_eq.
Qed.

(** X6: [FailRegisterForID] is consulted by [Register] alone. The two
    test variants of registration ignore it, also for the flagged task:
    [RegisterOnlyFirstRegistrationIntent] and
    [RegisterWithoutMarathonTaskTag] store what they store without the
    flag. The queries and the deregistrations act as before. *)
Theorem FailRegisterForID_is_ignored_by_the_variants (c : Stub)
    (taskID : TaskID) :
  (∀ task app,
     RegisterOnlyFirstRegistrationIntent (FailRegisterForID c taskID) task app
     = match RegisterOnlyFirstRegistrationIntent c task app with
       | Returns c' => Returns (FailRegisterForID c' taskID)
       | Panics => Panics
       end)
  ∧ (∀ task app,
       RegisterWithoutMarathonTaskTag (FailRegisterForID c taskID) task app
       = FailRegisterForID (RegisterWithoutMarathonTaskTag c task app) taskID)
  ∧ (∀ name, GetServices (FailRegisterForID c taskID) name = GetServices c name)
  ∧ GetAllServices (FailRegisterForID c taskID) = GetAllServices c
  ∧ (∀ t,
       DeregisterByTask (FailRegisterForID c taskID) t
       = (FailRegisterForID (DeregisterByTask c t).1 taskID,
          (DeregisterByTask c t).2))
  ∧ (∀ toDeregister,
       Deregister (FailRegisterForID c taskID) toDeregister
       = (FailRegisterForID (Deregister c toDeregister).1 taskID,
          (Deregister c toDeregister).2)).
Proof.
  split_and!.
  - intros task app. frame_setter.
  - done.
  - done.
  - done.
  - intros t. frame_setter.
  - intros s. frame_setter.
Qed.

(** X7: [FailDeregisterByTaskForID] makes [DeregisterByTask] fail for
    that task from the next call on, leaving the task's entries in the
    table. For any other task it acts as before. The flag does not guard
    the entries themselves: [Deregister] removes an entry of the flagged
    task as before, and [Register] and the queries act as before. *)
Theorem FailDeregisterByTaskForID_affects_only_that_task (c : Stub)
    (taskID : TaskID) :
  (∃ msg, DeregisterByTask (FailDeregisterByTaskForID c taskID) taskID
          = (FailDeregisterByTaskForID c taskID, Some msg)
          ∧ mentions msg (apps.TaskID_String taskID))
  ∧ (∀ t, t ≠ taskID →
       DeregisterByTask (FailDeregisterByTaskForID c taskID) t
       = (FailDeregisterByTaskForID (DeregisterByTask c t).1 taskID,
          (DeregisterByTask c t).2))
  ∧ (∀ toDeregister,
       Deregister (FailDeregisterByTaskForID c taskID) toDeregister
       = (FailDeregisterByTaskForID (Deregister c toDeregister).1 taskID,
          (Deregister c toDeregister).2))
  ∧ (∀ task app,
       Register (FailDeregisterByTaskForID c taskID) task app
       = (FailDeregisterByTaskForID (Register c task app).1 taskID,
          (Register c task app).2))
  ∧ (∀ name, GetServices (FailDeregisterByTaskForID c taskID) name
             = GetServices c name)
  ∧ GetAllServices (FailDeregisterByTaskForID c taskID) = GetAllServices c.
Proof.
  split_and!.
  - rewrite DeregisterByTask_flagged
      by (simpl; rewrite lookup_insert_eq; by eexists).
    eexists. split; [done |]. apply mentions_suffix.
  - intros t Hne. unfold DeregisterByTask. simpl.
    rewrite lookup_insert_ne by done. frame_setter.
  - intros s. frame_setter.
  - intros task app. frame_setter.
  - done.
  - done.
Qed.

(** X8: [FailDeregisterForID] makes [Deregister] fail for a service with
    that id from the next call on, leaving its entry in the table. For a
    service with another id it acts as before. The flag does not guard the
    entry itself: [DeregisterByTask] removes it as before, and [Register]
    overwrites it as before. *)
Theorem FailDeregisterForID_affects_only_that_id (c : Stub)
    (serviceID : string) :
  (∀ toDeregister, service.ID toDeregister = serviceID →
     ∃ msg, Deregister (FailDeregisterForID c serviceID) toDeregister
            = (FailDeregisterForID c serviceID, Some msg)
            ∧ mentions msg serviceID)
  ∧ (∀ toDeregister, service.ID toDeregister ≠ serviceID →
       Deregister (FailDeregisterForID c serviceID) toDeregister
       = (FailDeregisterForID (Deregister c toDeregister).1 serviceID,
          (Deregister c toDeregister).2))
  ∧ (∀ taskID,
       DeregisterByTask (FailDeregisterForID c serviceID) taskID
       = (FailDeregisterForID (DeregisterByTask c taskID).1 serviceID,
          (DeregisterByTask c taskID).2))
  ∧ (∀ task app,
       Register (FailDeregisterForID c serviceID) task app
       = (FailDeregisterForID (Register c task app).1 serviceID,
          (Register c task app).2))
  ∧ (∀ name, GetServices (FailDeregisterForID c serviceID) name
             = GetServices c name)
  ∧ GetAllServices (FailDeregisterForID c serviceID) = GetAllServices c.
Proof.
  split_and!.
  - intros s <-. rewrite Deregister_flagged
      by (simpl; rewrite lookup_insert_eq; by eexists).
    eexists. split; [done |]. apply mentions_suffix.
  - intros s Hne. unfold Deregister. simpl.
    rewrite lookup_insert_ne by done. frame_setter.
  - intros taskID. frame_setter.
  - intros task app. frame_setter.
  - done.
  - done.
Qed.

End Flags.

(** ** Registration *)

Section MoreTableLoops.

Implicit Types (m : gmap string AgentServiceRegistration).
Implicit Types (l : list AgentServiceRegistration).

Lemma foldl_insert_lookup_notin l m k :
  k ∉ consulapi.ID <$> l →
  foldl (λ m r, <[consulapi.ID r := r]> m) m l !! k = m !! k.
Proof.
  revert m. induction l as [|x l IH]; intros m Hnin; [done |].
  rewrite fmap_cons in Hnin. apply not_elem_of_cons in Hnin as [Hne Hnin].
  simpl. rewrite IH by done. by rewrite lookup_insert_ne.
Qed.

Lemma foldl_insert_lookup_NoDup l m r :
  NoDup (consulapi.ID <$> l) → r ∈ l →
  foldl (λ m r, <[consulapi.ID r := r]> m) m l !! consulapi.ID r = Some r.
Proof.
  revert m. induction l as [|x l IH]; intros m Hnd Hin.
  - by apply elem_of_nil in Hin.
  - rewrite fmap_cons in Hnd. apply NoDup_cons in Hnd as [Hx Hnd].
    simpl. apply elem_of_cons in Hin as [->|Hin].
    + rewrite foldl_insert_lookup_notin by done. apply lookup_insert_eq.
    + by apply IH.
Qed.

Lemma foldl_insert_dom_subseteq l m :
  dom m ⊆ dom (foldl (λ m r, <[consulapi.ID r := r]> m) m l).
Proof. rewrite foldl_insert_dom. apply union_subseteq_l. Qed.

Lemma foldl_insert_same_key {A : Type} (k : string)
    (f : A → AgentServiceRegistration) (intents : list A) m :
  foldl (λ m i, <[k := f i]> m) m intents
  = match last intents with
    | Some i => <[k := f i]> m
    | None => m
    end.
Proof.
  revert m. induction intents as [|x intents IH]; intros m; [done |].
  simpl foldl. rewrite IH, last_cons.
  destruct (last intents); [|done]. by rewrite insert_insert_eq.
Qed.

Lemma foldl_delete_subseteq l m :
  foldl (λ m x, delete (consulapi.ID x) m) m l ⊆ m.
Proof.
  revert m. induction l as [|x l IH]; intros m; [done |].
  simpl. etrans; [apply IH |]. apply delete_subseteq.
Qed.

End MoreTableLoops.

Section Registration.

Context {collab : Collaborators}.

(** The entry that [RegisterWithoutMarathonTaskTag] builds from an intent. *)
Lemma RegisterWithoutMarathonTaskTag_unfold (c : Stub) (task : Task) (app : App) :
  RegisterWithoutMarathonTaskTag c task app
  = match last (RegistrationIntents app task
                  (ConsulNameSeparator (config (consul c)))) with
    | Some intent =>
        with_services c
          (<[apps.TaskID_String (Task_ID task) :=
               {| consulapi.ID := apps.TaskID_String (Task_ID task);
                  consulapi.Name := apps.Name intent;
                  consulapi.Tags := apps.Tags intent;
                  consulapi.Port := apps.Port intent;
                  consulapi.Address := Task_Host task |}]> (services c))
    | None => c
    end.
Proof.
  unfold RegisterWithoutMarathonTaskTag.
  etrans; [exact (f_equal (with_services c)
    (foldl_insert_same_key (apps.TaskID_String (Task_ID task))
       (λ intent, {| consulapi.ID := apps.TaskID_String (Task_ID task);
                     consulapi.Name := apps.Name intent;
                     consulapi.Tags := apps.Tags intent;
                     consulapi.Port := apps.Port intent;
                     consulapi.Address := Task_Host task |})
       _ (services c))) |].
  destruct (last _); [done |]. apply with_services_id.
Qed.

(** X9: a failing [Register] stores nothing. Whenever [Register] returns
    an error the stub is left as it was. When the task is not flagged and
    the extraction fails, its error is returned as it is and none of the
    registrations returned next to it is stored. An extraction that yields
    no registration is a success that changes nothing. Whatever the
    outcome, [Register] leaves the failure sets and the configuration
    alone. *)
Theorem Register_fails_without_storing (c : Stub) (task : Task) (app : App) :
  (∀ e, (Register c task app).2 = Some e → (Register c task app).1 = c)
  ∧ (∀ regs e,
       failRegisterForIDs c !! Task_ID task = None →
       marathonTaskToConsulServices (consul c) task app = (regs, Some e) →
       Register c task app = (c, Some e))
  ∧ (failRegisterForIDs c !! Task_ID task = None →
     marathonTaskToConsulServices (consul c) task app = ([], None) →
     Register c task app = (c, None))
  ∧ failGetServicesForNames (Register c task app).1 = failGetServicesForNames c
  ∧ failRegisterForIDs (Register c task app).1 = failRegisterForIDs c
  ∧ failDeregisterByTaskForIDs (Register c task app).1
    = failDeregisterByTaskForIDs c
  ∧ failDeregisterForIDs (Register c task app).1 = failDeregisterForIDs c
  ∧ consul (Register c task app).1 = consul c.
Proof.
  unfold Register. split_and!.
  - intros e. destruct (failRegisterForIDs c !! Task_ID task); [done |].
    by destruct (marathonTaskToConsulServices _ _ _) as [regs [e'|]].
  - intros regs e -> ->. done.
  - intros -> ->. simpl. by rewrite with_services_id.
  - destruct (failRegisterForIDs c !! Task_ID task); [done |].
    by destruct (marathonTaskToConsulServices _ _ _) as [regs [e'|]].
  - destruct (failRegisterForIDs c !! Task_ID task); [done |].
    by destruct (marathonTaskToConsulServices _ _ _) as [regs [e'|]].
  - destruct (failRegisterForIDs c !! Task_ID task); [done |].
    by destruct (marathonTaskToConsulServices _ _ _) as [regs [e'|]].
  - destruct (failRegisterForIDs c !! Task_ID task); [done |].
    by destruct (marathonTaskToConsulServices _ _ _) as [regs [e'|]].
  - destruct (failRegisterForIDs c !! Task_ID task); [done |].
    by destruct (marathonTaskToConsulServices _ _ _) as [regs [e'|]].
Qed.

(** X10: what [Register] stores can be read back. After a successful
    [Register] whose registrations have pairwise distinct ids, each of them
    is the entry under its id, is returned by [GetAllServices], and is
    returned by [GetServices] for its name when it carries the registry tag
    and the name is not flagged; the entries under other ids are as
    before. *)
Theorem Register_then_query (c : Stub) (task : Task) (app : App)
    (regs : list AgentServiceRegistration) :
  failRegisterForIDs c !! Task_ID task = None →
  marathonTaskToConsulServices (consul c) task app = (regs, None) →
  NoDup (consulapi.ID <$> regs) →
  ∃ c1, Register c task app = (c1, None)
    ∧ (∀ r, r ∈ regs → services c1 !! consulapi.ID r = Some r)
    ∧ (∀ r, r ∈ regs → toService r ∈ (GetAllServices c1).1)
    ∧ (∀ r, r ∈ regs →
         failGetServicesForNames c !! consulapi.Name r = None →
         Tag (config (consul c)) ∈ consulapi.Tags r →
         toService r ∈ (GetServices c1 (consulapi.Name r)).1)
    ∧ (∀ k, k ∉ consulapi.ID <$> regs → services c1 !! k = services c !! k).
Proof.
  intros Hok Hregs Hnd. eexists. split; [by apply Register_stores |].
  assert (Hstored : ∀ r, r ∈ regs →
    foldl (λ m r, <[consulapi.ID r := r]> m) (services c) regs
      !! consulapi.ID r = Some r).
  { intros r Hr. by apply foldl_insert_lookup_NoDup. }
  split_and!.
  - exact Hstored.
  - intros r Hr. rewrite GetAllServices_unfold. simpl.
    apply list_elem_of_fmap. exists r. split; [done |].
    apply elem_of_range_map_values. exists (consulapi.ID r). by apply Hstored.
  - intros r Hr Hname Htag. rewrite GetServices_unfold by done. simpl.
    apply list_elem_of_fmap. exists r. split; [done |].
    apply list_elem_of_filter. split.
    + apply Is_true_true, ownedByName_spec. done.
    + apply elem_of_range_map_values. exists (consulapi.ID r).
      by apply Hstored.
  - intros k Hk. simpl. by apply foldl_insert_lookup_notin.
Qed.


End Registration.

(** ** The test variants of registration *)

Section Variants.

Context {collab : Collaborators}.

Lemma RegisterWithoutMarathonTaskTag_keyed (c : Stub) (task : Task) (app : App) :
  keyed_by_ID (services c) →
  keyed_by_ID (services (RegisterWithoutMarathonTaskTag c task app)).
Proof.
  intros Hkeyed. rewrite RegisterWithoutMarathonTaskTag_unfold.
  destruct (last _); [|done]. simpl. by apply map_Forall_insert_2.
Qed.

Lemma RegisterWithoutMarathonTaskTag_lookup_ne (c : Stub) (task : Task)
    (app : App) (k : string) :
  k ≠ apps.TaskID_String (Task_ID task) →
  services (RegisterWithoutMarathonTaskTag c task app) !! k = services c !! k.
Proof.
  intros Hne. rewrite RegisterWithoutMarathonTaskTag_unfold.
  destruct (last _); [|done]. simpl. by rewrite lookup_insert_ne.
Qed.

(** X12: no registration removes an entry. After [Register], after
    [RegisterWithoutMarathonTaskTag] and after a
    [RegisterOnlyFirstRegistrationIntent] that returns, every id that was
    in the table is still in it; the two variants add at most one entry. *)
Theorem registration_never_removes (c : Stub) (task : Task) (app : App) :
  dom (services c) ⊆ dom (services (Register c task app).1)
  ∧ dom (services c)
    ⊆ dom (services (RegisterWithoutMarathonTaskTag c task app))
  ∧ (size (services (RegisterWithoutMarathonTaskTag c task app))
     ≤ S (size (services c)))%nat
  ∧ (∀ c', RegisterOnlyFirstRegistrationIntent c task app = Returns c' →
       dom (services c) ⊆ dom (services c')
       ∧ (size (services c') ≤ S (size (services c)))%nat).
Proof.
  split_and!.
  - unfold Register. destruct (failRegisterForIDs c !! Task_ID task); [done |].
    destruct (marathonTaskToConsulServices _ _ _) as [regs [e|]]; [done |].
    apply foldl_insert_dom_subseteq.
  - rewrite RegisterWithoutMarathonTaskTag_unfold.
    destruct (last _); [|done]. apply dom_insert_subseteq.
  - rewrite RegisterWithoutMarathonTaskTag_unfold.
    destruct (last _); [| lia]. simpl. rewrite map_size_insert.
    destruct (services c !! _); simpl; lia.
  - intros c'. unfold RegisterOnlyFirstRegistrationIntent.
    destruct (marathonTaskToConsulServices _ _ _) as [regs e].
    destruct (regs !! 0%nat) as [r0|]; [|done]. intros [= <-]. simpl. split.
    + apply dom_insert_subseteq.
    + rewrite map_size_insert. destruct (services c !! _); simpl; lia.
Qed.

(** X13: [RegisterWithoutMarathonTaskTag] stores every intent under the
    same id, the task's, so only the last intent of the app is left in the
    table: its entry has the task's id and host and the intent's name,
    port and tags, with no tag added. With no intent the stub is left as
    it was. The entries under other ids are as before. *)
Theorem RegisterWithoutMarathonTaskTag_keeps_last_intent (c : Stub)
    (task : Task) (app : App) :
  (RegistrationIntents app task (ConsulNameSeparator (config (consul c))) = [] →
   RegisterWithoutMarathonTaskTag c task app = c)
  ∧ (∀ intent,
       last (RegistrationIntents app task
               (ConsulNameSeparator (config (consul c)))) = Some intent →
       services (RegisterWithoutMarathonTaskTag c task app)
         !! apps.TaskID_String (Task_ID task)
       = Some {| consulapi.ID := apps.TaskID_String (Task_ID task);
                 consulapi.Name := apps.Name intent;
                 consulapi.Tags := apps.Tags intent;
                 consulapi.Port := apps.Port intent;
                 consulapi.Address := Task_Host task |})
  ∧ (∀ k, k ≠ apps.TaskID_String (Task_ID task) →
       services (RegisterWithoutMarathonTaskTag c task app) !! k
       = services c !! k).
Proof.
  split_and!.
  - rewrite RegisterWithoutMarathonTaskTag_unfold. by intros ->.
  - rewrite RegisterWithoutMarathonTaskTag_unfold.
    intros intent ->. simpl. apply lookup_insert_eq.
  - intros k Hne. by apply RegisterWithoutMarathonTaskTag_lookup_ne.
Qed.

(** X14: an entry stored by [RegisterWithoutMarathonTaskTag] carries no
    link tag and is still removed by [DeregisterByTask] for its task,
    since its id is the task's. In a stub whose table is keyed by id and
    whose task is not flagged, the two calls in a row leave no entry under
    the task's id; if no entry matched the task before, they give back the
    stub as it was. *)
Theorem RegisterWithoutMarathonTaskTag_removed_by_task (c : Stub)
    (task : Task) (app : App) :
  keyed_by_ID (services c) →
  failDeregisterByTaskForIDs c !! Task_ID task = None →
  (DeregisterByTask (RegisterWithoutMarathonTaskTag c task app)
                    (Task_ID task)).2 = None
  ∧ services (DeregisterByTask (RegisterWithoutMarathonTaskTag c task app)
                               (Task_ID task)).1
      !! apps.TaskID_String (Task_ID task) = None
  ∧ ((∀ k s, services c !! k = Some s →
        ¬ (consulapi.ID s = apps.TaskID_String (Task_ID task)
           ∨ "marathon-task:" +:+ apps.TaskID_String (Task_ID task)
             ∈ consulapi.Tags s)) →
     DeregisterByTask (RegisterWithoutMarathonTaskTag c task app)
                      (Task_ID task) = (c, None)).
Proof.
  intros Hkeyed Hok.
  set (c1 := RegisterWithoutMarathonTaskTag c task app).
  assert (Hkeyed1 : keyed_by_ID (services c1))
    by (by apply RegisterWithoutMarathonTaskTag_keyed).
  assert (Hok1 : failDeregisterByTaskForIDs c1 !! Task_ID task = None) by done.
  pose proof (λ k, DeregisterByTask_lookup c1 (Task_ID task) k Hkeyed1 Hok1)
    as Hlook.
  assert (Htid : services (DeregisterByTask c1 (Task_ID task)).1
                   !! apps.TaskID_String (Task_ID task) = None).
  { rewrite Hlook.
    destruct (services c1 !! apps.TaskID_String (Task_ID task)) as [s|] eqn:Hs;
      [|done].
    assert (Hm : matchesTask (Task_ID task) s = true).
    { apply matchesTask_spec. left. exact (Hkeyed1 _ _ Hs). }
    by rewrite Hm. }
  split_and!.
  - unfold DeregisterByTask. by rewrite Hok1.
  - exact Htid.
  - intros Hnone.
    assert (Hsame : services (DeregisterByTask c1 (Task_ID task)).1
                    = services c).
    { apply map_eq. intros k.
      destruct (decide (k = apps.TaskID_String (Task_ID task))) as [->|Hne].
      - rewrite Htid. symmetry.
        destruct (services c !! apps.TaskID_String (Task_ID task)) as [s|] eqn:Hs;
          [|done].
        destruct (Hnone _ _ Hs). left. exact (Hkeyed _ _ Hs).
      - rewrite Hlook. unfold c1.
        rewrite RegisterWithoutMarathonTaskTag_lookup_ne by done.
        destruct (services c !! k) as [s|] eqn:Hs; [|done].
        destruct (matchesTask (Task_ID task) s) eqn:Hm; [|done].
        apply matchesTask_spec in Hm. by destruct (Hnone k s Hs). }
    clear Hlook Htid. unfold DeregisterByTask in Hsame |- *.
    rewrite Hok1 in Hsame |- *. f_equal.
    transitivity (with_services c1 (services c)).
    + f_equal. exact Hsame.
    + unfold c1. rewrite RegisterWithoutMarathonTaskTag_unfold.
      destruct (last _); by destruct c.
Qed.

(** X15: [Register] completes what
    [RegisterOnlyFirstRegistrationIntent] left half done. When the task is
    not flagged and its extraction succeeds, a partial registration
    returns (there is a first registration, stored under its id), and
    [Register] after it gives the very result of [Register] alone. *)
Theorem Register_completes_partial_registration (c c' : Stub) (task : Task)
    (app : App) (regs : list AgentServiceRegistration) :
  failRegisterForIDs c !! Task_ID task = None →
  marathonTaskToConsulServices (consul c) task app = (regs, None) →
  RegisterOnlyFirstRegistrationIntent c task app = Returns c' →
  (∃ r0, head regs = Some r0 ∧ services c' !! consulapi.ID r0 = Some r0)
  ∧ Register c' task app = Register c task app.
Proof.
  intros Hok Hregs. unfold RegisterOnlyFirstRegistrationIntent.
  rewrite Hregs. destruct regs as [|r0 rest]; [done |]. simpl.
  intros [= <-]. split.
  - exists r0. split; [done |]. simpl. apply lookup_insert_eq.
  - rewrite (Register_stores c task app (r0 :: rest)) by done.
    rewrite (Register_stores _ task app (r0 :: rest)) by done.
    simpl. by rewrite insert_insert_eq.
Qed.

End Variants.

(** ** Deregistration *)

Section Deregistration.

Context {collab : Collaborators}.

(** X16: when the id of the service is not flagged, [Deregister] succeeds
    and removes the entry under that id and nothing else: the table loses
    one entry if the id was there, the entries under other ids are as
    before, and a second call changes nothing. Only the id of the argument
    is read: two services with the same id are deregistered alike. In a
    table keyed by id, [GetAllServices] then returns no service with that
    id. *)
Theorem Deregister_removes_that_entry (c : Stub) (toDeregister : Service) :
  failDeregisterForIDs c !! service.ID toDeregister = None →
  ∃ c', Deregister c toDeregister = (c', None)
    ∧ services c' !! service.ID toDeregister = None
    ∧ (∀ k, k ≠ service.ID toDeregister → services c' !! k = services c !! k)
    ∧ (is_Some (services c !! service.ID toDeregister) →
       S (size (services c')) = size (services c))
    ∧ Deregister c' toDeregister = (c', None)
    ∧ (∀ other, service.ID other = service.ID toDeregister →
         Deregister c other = Deregister c toDeregister)
    ∧ (keyed_by_ID (services c) →
       ∀ s, s ∈ (GetAllServices c').1 →
            service.ID s ≠ service.ID toDeregister).
Proof.
  intros Hok.
  exists (with_services c (delete (service.ID toDeregister) (services c))).
  split; [unfold Deregister; by rewrite Hok |].
  split_and!.
  - apply lookup_delete_eq.
  - intros k Hne. simpl. by rewrite lookup_delete_ne.
  - intros Hin. simpl. rewrite map_size_delete_Some by done.
    destruct Hin as [r Hr].
    assert (size (services c) ≠ 0%nat); [|lia].
    intros Hz%map_size_empty_iff. rewrite Hz in Hr. by rewrite lookup_empty in Hr.
  - unfold Deregister. simpl. rewrite Hok. f_equal.
    unfold with_services. simpl. f_equal. apply delete_id, lookup_delete_eq.
  - intros other Heq. unfold Deregister. by rewrite Heq.
  - intros Hkeyed s. rewrite GetAllServices_unfold. simpl.
    intros (r & -> & Hr)%list_elem_of_fmap.
    apply elem_of_range_map_values in Hr as [k Hk]. simpl. intros Heq.
    assert (Hkeyed' : keyed_by_ID (delete (service.ID toDeregister) (services c)))
      by (by apply map_Forall_delete).
    rewrite <- (Hkeyed' k r Hk) in Hk at 1. rewrite Heq in Hk.
    by rewrite lookup_delete_eq in Hk.
Qed.

(** X17: no deregistration adds or alters an entry. Whatever the state
    and the flags, the table after [Deregister] and the table after
    [DeregisterByTask] are parts of the table before, and the failure sets
    and the configuration are as before. *)
Theorem deregistration_never_adds (c : Stub) :
  (∀ toDeregister,
     services (Deregister c toDeregister).1 ⊆ services c
     ∧ flags_kept c (Deregister c toDeregister).1
     ∧ flags_kept (Deregister c toDeregister).1 c
     ∧ consul (Deregister c toDeregister).1 = consul c)
  ∧ (∀ taskID,
       services (DeregisterByTask c taskID).1 ⊆ services c
       ∧ flags_kept c (DeregisterByTask c taskID).1
       ∧ flags_kept (DeregisterByTask c taskID).1 c
       ∧ consul (DeregisterByTask c taskID).1 = consul c).
Proof.
  split.
  - intros s. unfold Deregister.
    destruct (failDeregisterForIDs c !! service.ID s); simpl.
    + split_and!; [done | apply flags_kept_refl | apply flags_kept_refl | done].
    + split_and!; [apply delete_subseteq | | | done]; by repeat split.
  - intros taskID. unfold DeregisterByTask.
    destruct (failDeregisterByTaskForIDs c !! taskID); simpl.
    + split_and!; [done | apply flags_kept_refl | apply flags_kept_refl | done].
    + split_and!; [apply foldl_delete_subseteq | | | done]; by repeat split.
Qed.

(** X18: after [DeregisterByTask] nothing of the task is left. In a stub
    whose table is keyed by id (as in every reachable state) and for a task
    that is not flagged, the table after the call has no entry matching
    the task, [GetAllServices] returns no service with the task's id or
    with its link tag, and a second call succeeds and changes nothing. *)
Theorem DeregisterByTask_leaves_no_match (c : Stub) (taskID : TaskID) :
  keyed_by_ID (services c) →
  failDeregisterByTaskForIDs c !! taskID = None →
  ∃ c', DeregisterByTask c taskID = (c', None)
    ∧ servicesMatchingTask c' taskID = []
    ∧ (∀ s, s ∈ (GetAllServices c').1 →
         service.ID s ≠ apps.TaskID_String taskID
         ∧ "marathon-task:" +:+ apps.TaskID_String taskID ∉ service.Tags s)
    ∧ DeregisterByTask c' taskID = (c', None).
Proof.
  intros Hkeyed Hok.
  pose proof (λ k, DeregisterByTask_lookup c taskID k Hkeyed Hok) as Hlook.
  exists (DeregisterByTask c taskID).1.
  assert (Hnone : ∀ k s, services (DeregisterByTask c taskID).1 !! k = Some s →
                         matchesTask taskID s = false).
  { intros k s. rewrite Hlook. destruct (services c !! k) as [s0|]; [|done].
    destruct (matchesTask taskID s0) eqn:Hm; [done |]. by intros [= <-]. }
  assert (Hnil : servicesMatchingTask (DeregisterByTask c taskID).1 taskID = [])
    by (by apply servicesMatchingTask_nil).
  split_and!.
  - unfold DeregisterByTask. by rewrite Hok.
  - exact Hnil.
  - intros s. rewrite GetAllServices_unfold. simpl.
    intros (r & -> & Hr)%list_elem_of_fmap.
    apply elem_of_range_map_values in Hr as [k Hk].
    pose proof (Hnone k r Hk) as Hm. simpl.
    split; intros Hyes;
      (assert (matchesTask taskID r = true) as Ht
         by (apply matchesTask_spec; auto));
      by rewrite Ht in Hm.
  - clear Hlook Hnone. revert Hnil. unfold DeregisterByTask at 1 3 4.
    rewrite Hok. simpl. intros Hnil. unfold DeregisterByTask at 1.
    simpl. rewrite Hok, Hnil. simpl. done.
Qed.

End Deregistration.

(** ** The further properties on the example data *)

Lemma stub_web_keyed : keyed_by_ID (services stub_web).
Proof. exact (reachable_keyed stub_web stub_web_reachable). Qed.

Lemma stub_foreign_keyed : keyed_by_ID (services stub_foreign).
Proof.
  apply (reachable_keyed (collab := scripted)).
  exists "marathon", [CallRegister (collab := scripted) task_t2 app_foreign].
  reflexivity.
Qed.

Lemma stub_foreign_no_match_t1 :
  map_Forall (λ _ s, ¬ (consulapi.ID s = apps.TaskID_String "t1"
                        ∨ "marathon-task:" +:+ apps.TaskID_String "t1"
                          ∈ consulapi.Tags s))
             (services stub_foreign).
Proof. apply (bool_decide_unpack _). vm_compute. exact I. Qed.

Lemma configuration_is_fixed_witness :
  ∃ c, exec_calls (NewConsulStubWithTag "other") later_calls = Returns c
       ∧ Tag (config (consul c)) = "other"
       ∧ ConsulNameSeparator (config (consul c)) = ".".
Proof.
  eexists. split; [reflexivity |].
  destruct (configuration_is_fixed (collab := scripted)) as [_ Hfixed].
  apply (Hfixed "other" later_calls). reflexivity.
Defined.

Lemma reachable_services_have_distinct_ids_witness :
  reachable stub_web
  ∧ NoDup (service.ID <$> (GetAllServices stub_web).1)
  ∧ NoDup (service.ID <$> (GetServices stub_web "web").1).
Proof.
  split; [exact stub_web_reachable |].
  destruct (reachable_services_have_distinct_ids stub_web stub_web_reachable)
    as (Hall & _ & Hname).
  split; [exact Hall | exact (Hname "web")].
Defined.

Lemma GetServices_selects_from_GetAllServices_witness :
  failGetServicesForNames stub_web !! "web" = None
  ∧ length (GetAllServices stub_web).1 = 3%nat
  ∧ (length (GetServices stub_web "web").1
     ≤ length (GetAllServices stub_web).1)%nat.
Proof.
  split; [reflexivity |]. split; [reflexivity |].
  exact (proj2 (GetServices_selects_from_GetAllServices stub_web "web" eq_refl)).
Defined.

Lemma FailGetServicesForName_affects_only_that_name_witness :
  "web-admin" ≠ "web"
  ∧ GetServices (FailGetServicesForName stub_web "web-admin") "web"
    = GetServices stub_web "web"
  ∧ RegisteredTaskIDs (FailGetServicesForName stub_web "web-admin") "web-admin"
    = [].
Proof.
  split; [discriminate |].
  destruct (FailGetServicesForName_affects_only_that_name stub_web "web-admin")
    as (_ & Hids & Hother & _).
  split; [apply Hother; discriminate | exact Hids].
Defined.

Lemma FailDeregisterByTaskForID_affects_only_that_task_witness :
  "t2" ≠ "t1"
  ∧ (DeregisterByTask (FailDeregisterByTaskForID stub_web "t1") "t1").1
    = FailDeregisterByTaskForID stub_web "t1"
  ∧ services (DeregisterByTask (FailDeregisterByTaskForID stub_web "t1") "t2").1
    = services (DeregisterByTask stub_web "t2").1.
Proof.
  split; [discriminate |].
  destruct (FailDeregisterByTaskForID_affects_only_that_task stub_web "t1")
    as ((msg & -> & _) & Hother & _).
  split; [reflexivity |]. rewrite (Hother "t2"); [reflexivity | discriminate].
Defined.

Lemma FailDeregisterForID_affects_only_that_id_witness :
  service.ID (toService web_linked) = "t1_web_8080"
  ∧ service.ID (toService web_foreign) ≠ "t1_web_8080"
  ∧ (Deregister (FailDeregisterForID stub_web "t1_web_8080")
                (toService web_linked)).1
    = FailDeregisterForID stub_web "t1_web_8080"
  ∧ services (Deregister (FailDeregisterForID stub_web "t1_web_8080")
                         (toService web_foreign)).1
    = services (Deregister stub_web (toService web_foreign)).1.
Proof.
  split; [reflexivity |]. split; [discriminate |].
  destruct (FailDeregisterForID_affects_only_that_id stub_web "t1_web_8080")
    as (Hsame & Hother & _).
  destruct (Hsame (toService web_linked) eq_refl) as (msg & -> & _).
  split; [reflexivity |].
  rewrite (Hother (toService web_foreign)); [reflexivity | discriminate].
Defined.

Lemma Register_fails_without_storing_witness :
  failRegisterForIDs stub_foreign !! Task_ID task_t1 = None
  ∧ marathonTaskToConsulServices (consul stub_foreign) task_t1 app_broken
    = ([web_linked], Some "health check not supported")
  ∧ Register stub_foreign task_t1 app_broken
    = (stub_foreign, Some "health check not supported").
Proof.
  split; [reflexivity |]. split; [reflexivity |].
  destruct (Register_fails_without_storing (collab := scripted)
              stub_foreign task_t1 app_broken) as (_ & Herr & _).
  apply (Herr [web_linked]); reflexivity.
Defined.

Lemma Register_then_query_witness :
  failRegisterForIDs stub_foreign !! Task_ID task_t1 = None
  ∧ marathonTaskToConsulServices (consul stub_foreign) task_t1 app_t1
    = ([web_linked; web_by_id], None)
  ∧ NoDup (consulapi.ID <$> [web_linked; web_by_id])
  ∧ ∃ c1, Register stub_foreign task_t1 app_t1 = (c1, None)
      ∧ services c1 !! "t1" = Some web_by_id
      ∧ toService web_linked ∈ (GetServices c1 "web").1
      ∧ services c1 !! "t2_web_9090" = Some web_foreign.
Proof.
  split; [reflexivity |]. split; [reflexivity |].
  assert (Hnd : NoDup (consulapi.ID <$> [web_linked; web_by_id])).
  { apply (bool_decide_unpack _). vm_compute. exact I. }
  split; [exact Hnd |].
  destruct (Register_then_query (collab := scripted) stub_foreign task_t1 app_t1
              [web_linked; web_by_id] eq_refl eq_refl Hnd)
    as (c1 & Hc1 & Hstored & _ & Hget & Hrest).
  exists c1. split; [exact Hc1 |]. split_and!.
  - apply (Hstored web_by_id). right. by left.
  - apply (Hget web_linked); [by left | reflexivity | by left].
  - rewrite (Hrest "t2_web_9090"); [reflexivity |].
    apply (bool_decide_unpack _). vm_compute. exact I.
Defined.


Lemma registration_never_removes_witness :
  ∃ c', RegisterOnlyFirstRegistrationIntent stub_foreign task_t1 app_t1
        = Returns c'
        ∧ dom (services stub_foreign) ⊆ dom (services c')
        ∧ (size (services c') ≤ 2)%nat.
Proof.
  eexists. split; [reflexivity |].
  destruct (registration_never_removes (collab := scripted)
              stub_foreign task_t1 app_t1) as (_ & _ & _ & Hfirst).
  exact (Hfirst _ eq_refl).
Defined.

Lemma RegisterWithoutMarathonTaskTag_keeps_last_intent_witness :
  last (RegistrationIntents app_two_intents task_t1
          (ConsulNameSeparator (config (consul stub_foreign))))
  = Some intent_admin
  ∧ "t2_web_9090" ≠ apps.TaskID_String (Task_ID task_t1)
  ∧ services (RegisterWithoutMarathonTaskTag stub_foreign task_t1 app_two_intents)
      !! "t1"
    = Some {| consulapi.ID := "t1";
              consulapi.Name := "web-admin";
              consulapi.Tags := ["admin"];
              consulapi.Port := 8081;
              consulapi.Address := "10.0.0.1" |}
  ∧ services (RegisterWithoutMarathonTaskTag stub_foreign task_t1 app_two_intents)
      !! "t2_web_9090"
    = Some web_foreign.
Proof.
  split; [reflexivity |]. split; [discriminate |].
  destruct (RegisterWithoutMarathonTaskTag_keeps_last_intent
              (collab := scripted) stub_foreign task_t1 app_two_intents)
    as (_ & Hlast & Hrest).
  split.
  - exact (Hlast intent_admin eq_refl).
  - rewrite (Hrest "t2_web_9090"); [reflexivity | discriminate].
Defined.

Lemma RegisterWithoutMarathonTaskTag_removed_by_task_witness :
  keyed_by_ID (services stub_foreign)
  ∧ failDeregisterByTaskForIDs stub_foreign !! Task_ID task_t1 = None
  ∧ is_Some (services
               (RegisterWithoutMarathonTaskTag stub_foreign task_t1
                  app_two_intents) !! "t1")
  ∧ DeregisterByTask
      (RegisterWithoutMarathonTaskTag stub_foreign task_t1 app_two_intents)
      (Task_ID task_t1)
    = (stub_foreign, None).
Proof.
  split; [exact stub_foreign_keyed |]. split; [reflexivity |].
  split; [by eexists |].
  destruct (RegisterWithoutMarathonTaskTag_removed_by_task (collab := scripted)
              stub_foreign task_t1 app_two_intents stub_foreign_keyed eq_refl)
    as (_ & _ & Hback).
  apply Hback. exact stub_foreign_no_match_t1.
Defined.

Lemma Register_completes_partial_registration_witness :
  failRegisterForIDs stub_foreign !! Task_ID task_t1 = None
  ∧ marathonTaskToConsulServices (consul stub_foreign) task_t1 app_t1
    = ([web_linked; web_by_id], None)
  ∧ ∃ c', RegisterOnlyFirstRegistrationIntent stub_foreign task_t1 app_t1
          = Returns c'
          ∧ services c' !! "t1" = None
          ∧ Register c' task_t1 app_t1 = Register stub_foreign task_t1 app_t1.
Proof.
  split; [reflexivity |]. split; [reflexivity |].
  eexists. split; [reflexivity |]. split; [reflexivity |].
  apply (Register_completes_partial_registration (collab := scripted)
           stub_foreign _ task_t1 app_t1 [web_linked; web_by_id]);
    reflexivity.
Defined.

Lemma Deregister_removes_that_entry_witness :
  failDeregisterForIDs stub_web !! service.ID (toService web_linked) = None
  ∧ services stub_web !! "t1_web_8080" = Some web_linked
  ∧ ∃ c', Deregister stub_web (toService web_linked) = (c', None)
      ∧ services c' !! "t1_web_8080" = None
      ∧ size (services c') = 2%nat.
Proof.
  split; [reflexivity |]. split; [reflexivity |].
  destruct (Deregister_removes_that_entry stub_web (toService web_linked) eq_refl)
    as (c' & Hc' & Hgone & _ & Hsize & _).
  exists c'. split; [exact Hc' |]. split; [exact Hgone |].
  assert (Hs : S (size (services c')) = size (services stub_web))
    by (apply Hsize; by eexists).
  apply eq_add_S. rewrite Hs. reflexivity.
Defined.

Lemma DeregisterByTask_leaves_no_match_witness :
  keyed_by_ID (services stub_web)
  ∧ failDeregisterByTaskForIDs stub_web !! "t1" = None
  ∧ length (servicesMatchingTask stub_web "t1") = 2%nat
  ∧ ∃ c', DeregisterByTask stub_web "t1" = (c', None)
      ∧ servicesMatchingTask c' "t1" = []
      ∧ DeregisterByTask c' "t1" = (c', None).
Proof.
  split; [exact stub_web_keyed |]. split; [reflexivity |].
  split; [reflexivity |].
  destruct (DeregisterByTask_leaves_no_match stub_web "t1" stub_web_keyed eq_refl)
    as (c' & Hc' & Hnil & _ & Hagain).
  exists c'. by split_and!.
Defined.

(** ** Round trips through the queries *)

Section QueryRoundTrips.

Context {collab : Collaborators}.

(** X19: [RegisteredTaskIDs] lists what [Register] stored. After a
    successful [Register] whose registrations have pairwise distinct ids,
    for each of them that carries the registry tag and whose name is not
    flagged, the identifier that [TaskID] reads from its tags is among
    those [RegisteredTaskIDs] returns for its name. *)
Theorem RegisteredTaskIDs_after_Register (c : Stub) (task : Task) (app : App)
    (regs : list AgentServiceRegistration) (r : AgentServiceRegistration) :
  failRegisterForIDs c !! Task_ID task = None →
  marathonTaskToConsulServices (consul c) task app = (regs, None) →
  NoDup (consulapi.ID <$> regs) →
  r ∈ regs →
  failGetServicesForNames c !! consulapi.Name r = None →
  Tag (config (consul c)) ∈ consulapi.Tags r →
  (Service_TaskID (toService r)).1
  ∈ RegisteredTaskIDs (Register c task app).1 (consulapi.Name r).
Proof.
  intros Hok Hregs Hnd Hr Hname Htag.
  rewrite (Register_stores _ _ _ _ Hok Hregs). simpl.
  rewrite RegisteredTaskIDs_unfold. apply list_elem_of_fmap.
  exists (toService r). split; [done |].
  rewrite GetServices_unfold by done. simpl.
  apply list_elem_of_fmap. exists r. split; [done |].
  apply list_elem_of_filter. split.
  - apply Is_true_true, ownedByName_spec. done.
  - apply elem_of_range_map_values. exists (consulapi.ID r).
    by apply foldl_insert_lookup_NoDup.
Qed.

(** X20: deregistering a service that the stub returned removes that
    service and no other. In a stub whose table is keyed by id (as in
    every reachable state), for a service returned by [GetAllServices]
    whose id is not flagged, [Deregister] succeeds, and [GetAllServices]
    before the call returns, up to order, that service and the services
    it returns after the call. *)
Theorem Deregister_returned_service (c : Stub) (s : Service) :
  keyed_by_ID (services c) →
  s ∈ (GetAllServices c).1 →
  failDeregisterForIDs c !! service.ID s = None →
  (Deregister c s).2 = None
  ∧ (GetAllServices c).1 ≡ₚ s :: (GetAllServices (Deregister c s).1).1
  ∧ length (GetAllServices c).1
    = S (length (GetAllServices (Deregister c s).1).1).
Proof.
  intros Hkeyed Hs Hok.
  assert (Hperm : (GetAllServices c).1
                  ≡ₚ s :: (GetAllServices (Deregister c s).1).1).
  { revert Hs. rewrite !GetAllServices_unfold. simpl.
    intros (r & -> & Hr)%list_elem_of_fmap.
    apply elem_of_range_map_values in Hr as [k Hk].
    pose proof (Hkeyed k r Hk) as Hid.
    unfold Deregister. simpl in Hok |- *. rewrite Hok. simpl.
    rewrite !range_map_perm, Hid.
    by rewrite <- (map_to_list_delete (services c) k r Hk). }
  split_and!.
  - unfold Deregister. by rewrite Hok.
  - exact Hperm.
  - by rewrite Hperm.
Qed.

End QueryRoundTrips.

Lemma RegisteredTaskIDs_after_Register_witness :
  failRegisterForIDs stub_foreign !! Task_ID task_t1 = None
  ∧ marathonTaskToConsulServices (consul stub_foreign) task_t1 app_t1
    = ([web_linked; web_by_id], None)
  ∧ NoDup (consulapi.ID <$> [web_linked; web_by_id])
  ∧ web_linked ∈ [web_linked; web_by_id]
  ∧ failGetServicesForNames stub_foreign !! consulapi.Name web_linked = None
  ∧ Tag (config (consul stub_foreign)) ∈ consulapi.Tags web_linked
  ∧ "t1" ∈ RegisteredTaskIDs (Register stub_foreign task_t1 app_t1).1 "web".
Proof.
  assert (Hnd : NoDup (consulapi.ID <$> [web_linked; web_by_id])).
  { apply (bool_decide_unpack _). vm_compute. exact I. }
  assert (Hin : web_linked ∈ [web_linked; web_by_id]) by (by left).
  assert (Htag : Tag (config (consul stub_foreign)) ∈ consulapi.Tags web_linked)
    by (by left).
  repeat (split; [first [reflexivity | assumption] |]).
  exact (RegisteredTaskIDs_after_Register (collab := scripted)
           stub_foreign task_t1 app_t1 [web_linked; web_by_id] web_linked
           eq_refl eq_refl Hnd Hin eq_refl Htag).
Defined.

Lemma Deregister_returned_service_witness :
  keyed_by_ID (services stub_web)
  ∧ toService web_by_id ∈ (GetAllServices stub_web).1
  ∧ failDeregisterForIDs stub_web !! service.ID (toService web_by_id) = None
  ∧ length (GetAllServices (Deregister stub_web (toService web_by_id)).1).1
    = 2%nat.
Proof.
  assert (Hin : toService web_by_id ∈ (GetAllServices stub_web).1).
  { rewrite GetAllServices_unfold. apply list_elem_of_fmap.
    exists web_by_id. split; [reflexivity |].
    apply elem_of_range_map_values. by exists "t1". }
  split; [exact stub_web_keyed |]. split; [exact Hin |].
  split; [reflexivity |].
  destruct (Deregister_returned_service stub_web (toService web_by_id)
              stub_web_keyed Hin eq_refl) as (_ & _ & Hlen).
  apply eq_add_S. rewrite <- Hlen. reflexivity.
Defined.
